(** * KlicStudio MCP connector: a shallow embedding of [klicstudio-mcp.py]

  The connector exposes the HTTP API of a KlicStudio server as a set of
  tools.  Each tool is embedded below as a function of the stored base URL
  (the module global [KLICSTUDIO_BASE_URL]) and of the environment the
  Python code queries (upstream HTTP replies, local file system, library
  tables), returning the new base URL, the dictionary handed back to the
  caller and the HTTP requests that were sent.

  Conventions.
  - A Python [str] is represented by its UTF-8 encoding as a Rocq [string];
    concatenation, [startswith], [endswith] and [rstrip('/')] act on that
    encoding exactly as they act on the code points.
  - Objects obtained from [response.json()] and the dictionaries the code
    builds are values of type [value]; a [dict] keeps insertion order and
    has unique keys, as in Python.
  - [ctx.info], [ctx.error], [ctx.warning] and [print] only log; they are
    left out. *)

From Stdlib Require Import String Ascii List ZArith Bool Lia.
From Stdlib.Strings Require Import Byte.
From Stdlib Require Import SpecFloat.
Import ListNotations.

Set Warnings "-register-all".

Local Open Scope string_scope.
Local Open Scope Z_scope.

(* ================================================================== *)
(** ** Python strings *)

Module PyStr.

(** [s.startswith(p)] *)
Definition startswith (s p : string) : bool := String.prefix p s.

(** [s.rstrip(c)] for a one-character argument: drop every trailing [c]. *)
Fixpoint rstrip (c : ascii) (s : string) : string :=
  match s with
  | EmptyString => EmptyString
  | String a t =>
      match rstrip c t with
      | EmptyString => if Ascii.eqb a c then EmptyString else String a EmptyString
      | String b t' => String a (String b t')
      end
  end.

(** [s.endswith(suf)]: some suffix of [s] is [suf]. *)
Fixpoint endswith (s suf : string) : bool :=
  String.eqb s suf ||
  match s with
  | EmptyString => false
  | String _ t => endswith t suf
  end.

(** [s.endswith((suf1, suf2, ...))] *)
Definition endswith_any (s : string) (sufs : list string) : bool :=
  existsb (endswith s) sufs.

(** [p in s] for two strings: substring test. *)
Fixpoint contains (p s : string) : bool :=
  String.prefix p s ||
  match s with
  | EmptyString => false
  | String _ t => contains p t
  end.

(** Number of bytes of the UTF-8 sequence introduced by a lead byte. *)
Definition utf8_width (a : ascii) : nat :=
  let n := N_of_ascii a in
  if (n <? 192)%N then 1%nat
  else if (n <? 224)%N then 2%nat
  else if (n <? 240)%N then 3%nat
  else 4%nat.

Fixpoint take (n : nat) (s : string) : string :=
  match n, s with
  | S n', String a t => String a (take n' t)
  | _, _ => EmptyString
  end.

(** [s[0]]: the first character, [None] standing for [IndexError]. *)
Definition first_char (s : string) : option string :=
  match s with
  | EmptyString => None
  | String a _ => Some (take (utf8_width a) s)
  end.

(** [os.path.basename] (POSIX): what follows the last slash. *)
Fixpoint basename (p : string) : string :=
  match p with
  | EmptyString => EmptyString
  | String a t =>
      if contains "/" t then basename t
      else if Ascii.eqb a "/" then t
      else p
  end.

(** [n] copies of the slash. *)
Fixpoint slashes (n : nat) : string :=
  match n with
  | O => EmptyString
  | S n' => String "/" (slashes n')
  end.

End PyStr.

(* ================================================================== *)
(** ** Python values, dictionaries and exceptions *)

Module Py.
Import PyStr.

(** The objects [json.loads] produces, which are also the objects the
    connector builds with dictionary and list literals. *)
Inductive value : Type :=
| VNone
| VBool (b : bool)
| VInt (n : Z)
| VFloat (f : spec_float)
| VStr (s : string)
| VList (l : list value)
| VDict (d : list (string * value)).

Definition dict : Type := list (string * value).

Inductive exn : Type :=
| AttributeError
| TypeError
| KeyError (key : string)
| IndexError
| LookupError
| UnicodeDecodeError
| JSONDecodeError
| InvalidURL
| OSError (errno : Z)
| RequestError (detail : string)
| HTTPStatusError (status : Z).

(** A computation that may raise. *)
Definition result (A : Type) : Type := exn + A.

Definition ok {A} (a : A) : result A := inr a.
Definition throw {A} (e : exn) : result A := inl e.

Definition rbind {A B} (r : result A) (k : A -> result B) : result B :=
  match r with
  | inl e => inl e
  | inr a => k a
  end.

(** *** Dictionaries *)

Fixpoint dict_get (k : string) (d : dict) : option value :=
  match d with
  | [] => None
  | (k', v) :: d' => if String.eqb k' k then Some v else dict_get k d'
  end.

Definition dict_mem (k : string) (d : dict) : bool :=
  match dict_get k d with Some _ => true | None => false end.

(** [d[k] = v]: overwrite in place when [k] is present, else append. *)
Fixpoint dict_set (k : string) (v : value) (d : dict) : dict :=
  match d with
  | [] => [(k, v)]
  | (k', v') :: d' =>
      if String.eqb k' k then (k', v) :: d' else (k', v') :: dict_set k v d'
  end.

(** [d.get(k)] on a dictionary. *)
Definition dict_get_or_none (k : string) (d : dict) : value :=
  match dict_get k d with Some v => v | None => VNone end.

(** *** Dynamic operations *)

(** [x.get(k)]: only dictionaries have the method. *)
Definition py_get (x : value) (k : string) : result value :=
  match x with
  | VDict d => ok (dict_get_or_none k d)
  | _ => throw AttributeError
  end.

(** [x.get(k, default)] *)
Definition py_get_default (x : value) (k : string) (dflt : value) : result value :=
  match x with
  | VDict d => ok (match dict_get k d with Some v => v | None => dflt end)
  | _ => throw AttributeError
  end.

(** [x[k]] for a string key. *)
Definition py_getitem (x : value) (k : string) : result value :=
  match x with
  | VDict d => match dict_get k d with Some v => ok v | None => throw (KeyError k) end
  | _ => throw TypeError
  end.

(** [x[k] = v] for a string key. *)
Definition py_setitem (x : value) (k : string) (v : value) : result value :=
  match x with
  | VDict d => ok (VDict (dict_set k v d))
  | _ => throw TypeError
  end.

Definition is_str_value (k : string) (x : value) : bool :=
  match x with VStr s => String.eqb s k | _ => false end.

(** [k in x] for a string [k]: key test on a dictionary, substring test on
    a string, membership on a list, [TypeError] on anything else. *)
Definition py_in (k : string) (x : value) : result bool :=
  match x with
  | VDict d => ok (dict_mem k d)
  | VStr s => ok (contains k s)
  | VList l => ok (existsb (is_str_value k) l)
  | _ => throw TypeError
  end.

(** Exact comparison of a float with an integer. *)
Definition float_eq_int (f : spec_float) (n : Z) : bool :=
  match f with
  | S754_zero _ => n =? 0
  | S754_finite s m e =>
      let sm := if s then Z.neg m else Z.pos m in
      if 0 <=? e then sm * 2 ^ e =? n else sm =? n * 2 ^ (- e)
  | _ => false
  end.

(** [x == n] for an integer literal [n]; [bool] is a subtype of [int]. *)
Definition py_eq_int (x : value) (n : Z) : bool :=
  match x with
  | VInt z => z =? n
  | VBool b => (if b then 1 else 0) =? n
  | VFloat f => float_eq_int f n
  | _ => false
  end.

(** Truth value of an object. *)
Definition py_truthy (x : value) : bool :=
  match x with
  | VNone => false
  | VBool b => b
  | VInt n => negb (n =? 0)
  | VFloat (S754_zero _) => false
  | VFloat _ => true
  | VStr s => negb (String.eqb s "")
  | VList l => match l with [] => false | _ => true end
  | VDict d => match d with [] => false | _ => true end
  end.

(** Truth value of an [Optional[str]] parameter. *)
Definition opt_str_truthy (o : option string) : bool :=
  match o with
  | Some s => negb (String.eqb s "")
  | None => false
  end.

(** [x.append(v)]: only lists have the method. *)
Definition py_append (x : value) (v : value) : result value :=
  match x with
  | VList l => ok (VList (l ++ [v])%list)
  | _ => throw AttributeError
  end.

End Py.

(* ================================================================== *)
(** ** Text codecs: [bytes.decode] *)

Module Codec.
Import Py.

Definition in_range (lo hi : N) (b : byte) : bool :=
  let n := Byte.to_N b in ((lo <=? n) && (n <=? hi))%N.

(** Continuation byte [0x80..0xBF]. *)
Definition cont (b : byte) : bool := in_range 128 191 b.

(** Well-formed UTF-8 as CPython's strict decoder accepts it: shortest
    forms only, no surrogates, nothing above U+10FFFF. *)
Fixpoint utf8_valid (bs : list byte) : bool :=
  match bs with
  | [] => true
  | b0 :: r0 =>
      if in_range 0 127 b0 then utf8_valid r0
      else
        match r0 with
        | [] => false
        | b1 :: r1 =>
            if in_range 194 223 b0 then cont b1 && utf8_valid r1
            else
              match r1 with
              | [] => false
              | b2 :: r2 =>
                  if in_range 224 224 b0 then
                    in_range 160 191 b1 && cont b2 && utf8_valid r2
                  else if in_range 225 236 b0 || in_range 238 239 b0 then
                    cont b1 && cont b2 && utf8_valid r2
                  else if in_range 237 237 b0 then
                    in_range 128 159 b1 && cont b2 && utf8_valid r2
                  else
                    match r2 with
                    | [] => false
                    | b3 :: r3 =>
                        if in_range 240 240 b0 then
                          in_range 144 191 b1 && cont b2 && cont b3 && utf8_valid r3
                        else if in_range 241 243 b0 then
                          cont b1 && cont b2 && cont b3 && utf8_valid r3
                        else if in_range 244 244 b0 then
                          in_range 128 143 b1 && cont b2 && cont b3 && utf8_valid r3
                        else false
                    end
              end
        end
  end.

Definition byte_of_N (n : N) : byte :=
  match Byte.of_N n with Some b => b | None => x00 end.

(** UTF-8 encoding of the code point a Latin-1 byte stands for. *)
Definition latin1_char (b : byte) : list byte :=
  let n := Byte.to_N b in
  if (n <? 128)%N then [b]
  else [byte_of_N (192 + n / 64); byte_of_N (128 + n mod 64)].

(** [bs.decode(codec)] for the two codecs the connector names. *)
Definition decode (codec : string) (bs : list byte) : result string :=
  if String.eqb codec "utf-8" then
    if utf8_valid bs then ok (string_of_list_byte bs) else throw UnicodeDecodeError
  else if String.eqb codec "latin-1" then
    ok (string_of_list_byte (flat_map latin1_char bs))
  else throw LookupError.

End Codec.

(* ================================================================== *)
(** ** The environment of a tool call *)

Module Env.
Import Py.

Inductive http_method : Type := GET | POST.

(** Keyword arguments of [client.get] / [client.post]. *)
Inductive req_body : Type :=
| NoBody
| JsonBody (payload : value)
| FilesBody (file_name : string) (file_content : list byte) (mime_type : string).

Record request : Type := {
  req_method : http_method;
  req_url : string;
  req_body_of : req_body
}.

(** What the connector reads from an [httpx.Response]. *)
Record response : Type := {
  resp_json : result value;            (* response.json() *)
  resp_content : list byte;            (* response.content *)
  resp_content_type : option string    (* response.headers.get("content-type") *)
}.

(** Everything outside the connector that a tool call consults. *)
Record world : Type := {
  (* the request sent and [raise_for_status] applied *)
  http : request -> result response;
  (* httpx.URL(s).path, [None] when the URL is rejected *)
  url_path : string -> option string;
  (* os.path.exists *)
  path_exists : string -> bool;
  (* open(path, "rb").read() *)
  read_file : string -> result (list byte);
  (* mimetypes.guess_type(path)[0] *)
  guess_type : string -> option string;
  (* str.lower *)
  lower : string -> string;
  (* str(e) *)
  str_exn : exn -> string
}.

(** Tool bodies: may raise, and log the requests they send. *)
Definition M (A : Type) : Type := list request -> result A * list request.

Definition ret {A} (a : A) : M A := fun t => (inr a, t).
Definition raise {A} (e : exn) : M A := fun t => (inl e, t).
Definition lift {A} (r : result A) : M A := fun t => (r, t).

Definition bind {A B} (m : M A) (k : A -> M B) : M B :=
  fun t =>
    match m t with
    | (inl e, t') => (inl e, t')
    | (inr a, t') => k a t'
    end.

(** Hand a request to the network. *)
Definition send (w : world) (rq : request) : M response :=
  fun t => (http w rq, (t ++ [rq])%list).

(** [client.get(url)] / [client.post(url, ...)]: httpx builds [httpx.URL(url)]
    first, so a URL it rejects raises before anything is sent. *)
Definition client_request (w : world) (rq : request) : M response :=
  match url_path w (req_url rq) with
  | None => raise InvalidURL
  | Some _ => send w rq
  end.

(** What a tool hands back: the stored base URL after the call, the
    returned dictionary, and the requests sent during the call. *)
Record outcome : Type := {
  out_base : string;
  out_reply : value;
  out_calls : list request
}.

(** [try: body  except Exception as e: return handler(e)] *)
Definition try_except (base : string) (body : M value) (handler : exn -> value) : outcome :=
  match body [] with
  | (inr v, t) => {| out_base := base; out_reply := v; out_calls := t |}
  | (inl e, t) => {| out_base := base; out_reply := handler e; out_calls := t |}
  end.

End Env.

Declare Scope tool_scope.
Notation "x <- m ;; k" := (Env.bind m (fun x => k))
  (at level 61, m at next level, right associativity) : tool_scope.
Notation "x <~ r ;; k" := (Py.rbind r (fun x => k))
  (at level 61, r at next level, right associativity) : tool_scope.

(* ================================================================== *)
(** ** The connector *)

Module Klic.
Import PyStr Py Codec Env.
Local Open Scope tool_scope.

(** Module-level default of [KLICSTUDIO_BASE_URL]. *)
Definition DEFAULT_KLICSTUDIO_URL : string := "http://127.0.0.1:8888".

(** [__main__]: the stored URL is the command-line (or environment, or
    default) value with its trailing slashes removed; nothing else is
    checked. *)
Definition startup (klicstudio_url : string) : string := rstrip "/" klicstudio_url.

(** [{"error": 1, "msg": msg, "data": data}] *)
Definition error_reply (msg : string) (data : value) : value :=
  VDict [("error", VInt 1); ("msg", VStr msg); ("data", data)].

(** [_klicstudio_request(method, endpoint, **kwargs)]; every caller passes
    the literal "GET" or "POST", so the unsupported-method branch is not
    represented. *)
Definition _klicstudio_request (w : world) (KLICSTUDIO_BASE_URL : string)
    (method : http_method) (endpoint : string) (kwargs : req_body) : M response :=
  let url := KLICSTUDIO_BASE_URL ++ endpoint in
  client_request w {| req_method := method; req_url := url; req_body_of := kwargs |}.

(** A tool awaited from inside another tool's [try] block. *)
Definition await_tool (o : outcome) : M value :=
  fun t => (inr (out_reply o), (t ++ out_calls o)%list).

(** [x[k1][k2] = v] *)
Definition set_nested (x : value) (k1 k2 : string) (v : value) : result value :=
  inner <~ py_getitem x k1 ;;
  inner' <~ py_setitem inner k2 v ;;
  py_setitem x k1 inner'.

(** *** 1. Configuration tools *)

Definition get_klicstudio_base_url (KLICSTUDIO_BASE_URL : string) : outcome :=
  {| out_base := KLICSTUDIO_BASE_URL;
     out_reply :=
       VDict [("error", VInt 0);
              ("msg", VStr "当前配置获取成功");
              ("data", VDict [("klicstudio_base_url", VStr KLICSTUDIO_BASE_URL)])];
     out_calls := [] |}.

Definition set_klicstudio_base_url (KLICSTUDIO_BASE_URL new_url : string) : outcome :=
  let previous_url := KLICSTUDIO_BASE_URL in
  if negb (startswith new_url "http://" || startswith new_url "https://") then
    let msg := "设置失败：URL 格式不正确，应以 http:// 或 https:// 开头。" in
    {| out_base := KLICSTUDIO_BASE_URL;
       out_reply :=
         VDict [("error", VInt 1); ("msg", VStr msg);
                ("data", VDict [("previous_url", VStr previous_url)])];
       out_calls := [] |}
  else
    let KLICSTUDIO_BASE_URL := rstrip "/" new_url in
    let msg := "KlicStudio BASE URL 已从 '" ++ previous_url ++ "' 更新为 '"
               ++ KLICSTUDIO_BASE_URL ++ "'。" in
    {| out_base := KLICSTUDIO_BASE_URL;
       out_reply :=
         VDict [("error", VInt 0); ("msg", VStr msg);
                ("data", VDict [("new_klicstudio_base_url", VStr KLICSTUDIO_BASE_URL);
                                ("previous_klicstudio_base_url", VStr previous_url)])];
       out_calls := [] |}.

Definition get_klicstudio_system_config (w : world) (KLICSTUDIO_BASE_URL : string) : outcome :=
  try_except KLICSTUDIO_BASE_URL
    (response <- _klicstudio_request w KLICSTUDIO_BASE_URL GET "/api/config" NoBody ;;
     klicstudio_response <- lift (resp_json response) ;;
     ret klicstudio_response)
    (fun e => error_reply ("获取系统配置失败: " ++ str_exn w e) VNone).

Definition update_klicstudio_system_config (w : world) (KLICSTUDIO_BASE_URL : string)
    (config_data : value) : outcome :=
  try_except KLICSTUDIO_BASE_URL
    (response <- _klicstudio_request w KLICSTUDIO_BASE_URL POST "/api/config"
                   (JsonBody config_data) ;;
     klicstudio_response <- lift (resp_json response) ;;
     err <- lift (py_get klicstudio_response "error") ;;
     _ <- (if py_eq_int err 0 then ret VNone
           else lift (py_get_default klicstudio_response "msg" (VStr "未知错误"))) ;;
     ret klicstudio_response)
    (fun e => error_reply ("更新系统配置失败: " ++ str_exn w e) VNone).

Definition update_klicstudio_llm_config (w : world) (KLICSTUDIO_BASE_URL : string)
    (base_url api_key model : string) : outcome :=
  try_except KLICSTUDIO_BASE_URL
    (current_config_response <-
       await_tool (get_klicstudio_system_config w KLICSTUDIO_BASE_URL) ;;
     err <- lift (py_get current_config_response "error") ;;
     if negb (py_eq_int err 0) then ret current_config_response
     else
       config_data <- lift (py_getitem current_config_response "data") ;;
       config_data <- lift (set_nested config_data "llm" "baseUrl" (VStr base_url)) ;;
       config_data <- lift (set_nested config_data "llm" "apiKey" (VStr api_key)) ;;
       config_data <- lift (set_nested config_data "llm" "model" (VStr model)) ;;
       await_tool (update_klicstudio_system_config w KLICSTUDIO_BASE_URL config_data))
    (fun e => error_reply ("更新 LLM 配置失败: " ++ str_exn w e) VNone).

(** *** 2. File upload *)

Definition fallback_mime_type (w : world) (file_name : string) : string :=
  if endswith_any (lower w file_name) [".mp4"; ".mov"; ".avi"; ".mkv"] then "video/mp4"
  else if endswith_any (lower w file_name) [".mp3"; ".wav"; ".aac"; ".m4a"] then "audio/mpeg"
  else "application/octet-stream".

(** Lines 265-266: the post-processing of the upload reply. *)
Definition normalize_file_path (klicstudio_response : value) : result value :=
  data <~ py_get klicstudio_response "data" ;;
  if py_truthy data then
    file_path <~ py_get data "file_path" ;;
    match file_path with
    | VStr s =>
        (* klicstudio_response["data"]["file_path"][0] *)
        match first_char s with
        | Some c => set_nested klicstudio_response "data" "file_path" (VStr c)
        | None => throw IndexError
        end
    | _ => ok klicstudio_response
    end
  else ok klicstudio_response.

Definition upload_file_to_klicstudio (w : world) (KLICSTUDIO_BASE_URL : string)
    (server_accessible_file_path : string) : outcome :=
  try_except KLICSTUDIO_BASE_URL
    (if negb (path_exists w server_accessible_file_path) then
       ret (error_reply ("文件未找到: " ++ server_accessible_file_path) VNone)
     else
       let file_name := basename server_accessible_file_path in
       file_content <- lift (read_file w server_accessible_file_path) ;;
       let mime_type :=
         match guess_type w server_accessible_file_path with
         | Some m => m
         | None => fallback_mime_type w file_name
         end in
       response <- _klicstudio_request w KLICSTUDIO_BASE_URL POST "/api/file"
                     (FilesBody file_name file_content mime_type) ;;
       klicstudio_response <- lift (resp_json response) ;;
       lift (normalize_file_path klicstudio_response))
    (fun e => error_reply ("上传文件失败: " ++ str_exn w e) VNone).

(** *** 3. Subtitle tasks *)

(** Parameters of [start_klicstudio_subtitle_task]; [None] is an argument
    left at its [None] default. *)
Record subtitle_args : Type := {
  media_url_on_klicstudio : string;
  language : string;
  origin_lang : option string;
  target_lang : option string;
  bilingual : bool;
  translation_subtitle_pos : Z;
  tts : bool;
  tts_voice_code : option Z;
  tts_voice_clone_src_file_url : option string;
  modal_filter : bool;
  embed_subtitle_video_type : string;
  vertical_major_title : option string;
  vertical_minor_title : option string;
  replace_words : option (list string)
}.

(** The signature's defaults, for a given media URL. *)
Definition default_args (url : string) : subtitle_args :=
  {| media_url_on_klicstudio := url; language := "zh_cn";
     origin_lang := None; target_lang := None; bilingual := false;
     translation_subtitle_pos := 1; tts := false; tts_voice_code := None;
     tts_voice_clone_src_file_url := None; modal_filter := false;
     embed_subtitle_video_type := "none"; vertical_major_title := None;
     vertical_minor_title := None; replace_words := None |}.

Definition opt_str_value (o : option string) : value :=
  match o with Some s => VStr s | None => VNone end.

Definition set_if_not_none (k : string) (o : option value) (payload : dict) : dict :=
  match o with Some v => dict_set k v payload | None => payload end.

(** Lines 321-329: the fields every payload has. *)
Definition base_payload (a : subtitle_args) : dict :=
  [("url", VStr (media_url_on_klicstudio a));
   ("language", VStr (language a));
   ("bilingual", VInt (if bilingual a then 1 else 2));
   ("translation_subtitle_pos", VInt (translation_subtitle_pos a));
   ("tts", VInt (if tts a then 1 else 2));
   ("modal_filter", VInt (if modal_filter a then 1 else 2));
   ("embed_subtitle_video_type", VStr (embed_subtitle_video_type a))].

(** Lines 330-337: the translation fields. *)
Definition add_translation_fields (a : subtitle_args) (payload : dict) : dict :=
  let payload :=
    if opt_str_truthy (origin_lang a) then
      dict_set "origin_lang" (opt_str_value (origin_lang a)) payload
    else if opt_str_truthy (target_lang a) then
      dict_set "origin_lang" (VStr (language a)) payload
    else payload in
  if opt_str_truthy (target_lang a) then
    dict_set "target_lang" (opt_str_value (target_lang a)) payload
  else payload.

(** Lines 339-343: the TTS fields, read off the [tts] value already in the
    payload. *)
Definition add_tts_fields (a : subtitle_args) (payload : dict) : result dict :=
  tts_sent <~ py_getitem (VDict payload) "tts" ;;
  if py_eq_int tts_sent 1 then
    let payload :=
      set_if_not_none "tts_voice_code" (option_map VInt (tts_voice_code a)) payload in
    if opt_str_truthy (tts_voice_clone_src_file_url a) then
      ok (dict_set "tts_voice_clone_src_file_url"
            (opt_str_value (tts_voice_clone_src_file_url a)) payload)
    else ok payload
  else ok payload.

(** Lines 345-350: titles and word replacements. *)
Definition add_optional_fields (a : subtitle_args) (payload : dict) : dict :=
  let payload := set_if_not_none "vertical_major_title"
                   (option_map VStr (vertical_major_title a)) payload in
  let payload := set_if_not_none "vertical_minor_title"
                   (option_map VStr (vertical_minor_title a)) payload in
  match replace_words a with
  | Some (x :: l) => dict_set "replace" (VList (map VStr (x :: l))) payload
  | _ => payload
  end.

(** Lines 321-350: the payload of the task-creation request. *)
Definition subtitle_payload (a : subtitle_args) : result dict :=
  payload <~ add_tts_fields a (add_translation_fields a (base_payload a)) ;;
  ok (add_optional_fields a payload).

Definition start_klicstudio_subtitle_task (w : world) (KLICSTUDIO_BASE_URL : string)
    (a : subtitle_args) : outcome :=
  try_except KLICSTUDIO_BASE_URL
    (payload <- lift (subtitle_payload a) ;;
     response <- _klicstudio_request w KLICSTUDIO_BASE_URL POST
                   "/api/capability/subtitleTask" (JsonBody (VDict payload)) ;;
     klicstudio_response <- lift (resp_json response) ;;
     ret klicstudio_response)
    (fun e => error_reply ("启动字幕任务失败: " ++ str_exn w e) VNone).

(** The conditional expression of lines 389 and 394. *)
Definition absolute_url (KLICSTUDIO_BASE_URL relative_url : string) : string :=
  if startswith relative_url "/"
  then rstrip "/" KLICSTUDIO_BASE_URL ++ relative_url
  else rstrip "/" KLICSTUDIO_BASE_URL ++ "/" ++ relative_url.

(** Body of the loop of lines 386-389. *)
Definition fix_subtitle_item (KLICSTUDIO_BASE_URL : string) (item : value) : result value :=
  present <~ py_in "download_url" item ;;
  if present then
    url <~ py_getitem item "download_url" ;;
    match url with
    | VStr relative_url =>
        if negb (startswith relative_url "http") then
          py_setitem item "download_url"
            (VStr (absolute_url KLICSTUDIO_BASE_URL relative_url))
        else ok item
    | _ => ok item
    end
  else ok item.

Fixpoint fix_subtitle_items (KLICSTUDIO_BASE_URL : string) (items : list value)
  : result (list value) :=
  match items with
  | [] => ok []
  | item :: rest =>
      item' <~ fix_subtitle_item KLICSTUDIO_BASE_URL item ;;
      rest' <~ fix_subtitle_items KLICSTUDIO_BASE_URL rest ;;
      ok (item' :: rest')
  end.

(** Lines 385-389. *)
Definition fix_subtitle_info (KLICSTUDIO_BASE_URL : string) (data_part : dict) : result dict :=
  match dict_get "subtitle_info" data_part with
  | Some (VList items) =>
      items' <~ fix_subtitle_items KLICSTUDIO_BASE_URL items ;;
      ok (dict_set "subtitle_info" (VList items') data_part)
  | _ => ok data_part
  end.

(** Lines 392-394. *)
Definition fix_speech_url (KLICSTUDIO_BASE_URL : string) (data_part : dict) : dict :=
  match dict_get "speech_download_url" data_part with
  | Some (VStr relative_url) =>
      if negb (String.eqb relative_url "") && negb (startswith relative_url "http") then
        dict_set "speech_download_url"
          (VStr (absolute_url KLICSTUDIO_BASE_URL relative_url)) data_part
      else data_part
  | _ => data_part
  end.

Definition embed_entry (name download_url : string) : value :=
  VDict [("name", VStr name); ("download_url", VStr download_url)].

Definition h_embed_path (task_id : string) : string :=
  "/api/file/tasks/" ++ task_id ++ "/output/horizontal_embed.mp4".

Definition v_embed_path (task_id : string) : string :=
  "/api/file/tasks/" ++ task_id ++ "/output/vertical_embed.mp4".

Definition h_embed_entry (KLICSTUDIO_BASE_URL task_id : string) : value :=
  embed_entry "嵌入字幕的横屏视频 (可能存在)"
    (rstrip "/" KLICSTUDIO_BASE_URL ++ h_embed_path task_id).

Definition v_embed_entry (KLICSTUDIO_BASE_URL task_id : string) : value :=
  embed_entry "嵌入字幕的竖屏视频 (可能存在)"
    (rstrip "/" KLICSTUDIO_BASE_URL ++ v_embed_path task_id).

(** [data_part[k].append(v)] *)
Definition append_at (k : string) (v : value) (data_part : dict) : result dict :=
  l <~ py_getitem (VDict data_part) k ;;
  l' <~ py_append l v ;;
  ok (dict_set k l' data_part).

(** Lines 398-413. *)
Definition add_embedded_video_urls (KLICSTUDIO_BASE_URL task_id : string)
    (data_part : dict) : result dict :=
  let data_part :=
    if negb (dict_mem "potential_embedded_video_urls" data_part)
    then dict_set "potential_embedded_video_urls" (VList []) data_part
    else data_part in
  data_part <~ append_at "potential_embedded_video_urls"
                 (h_embed_entry KLICSTUDIO_BASE_URL task_id) data_part ;;
  append_at "potential_embedded_video_urls"
    (v_embed_entry KLICSTUDIO_BASE_URL task_id) data_part.

(** Lines 379-414, for a [data_part] that is a dictionary. *)
Definition post_process_data (KLICSTUDIO_BASE_URL task_id : string) (data_part : dict)
  : result dict :=
  let progress := dict_get_or_none "process_percent" data_part in
  data_part <~ fix_subtitle_info KLICSTUDIO_BASE_URL data_part ;;
  let data_part := fix_speech_url KLICSTUDIO_BASE_URL data_part in
  if py_eq_int progress 100
  then add_embedded_video_urls KLICSTUDIO_BASE_URL task_id data_part
  else ok data_part.

(** Lines 378-416. *)
Definition post_process_details (KLICSTUDIO_BASE_URL task_id : string)
    (klicstudio_response : value) : result value :=
  err <~ py_get klicstudio_response "error" ;;
  if py_eq_int err 0 then
    has_data <~ py_in "data" klicstudio_response ;;
    if has_data then
      data_part <~ py_getitem klicstudio_response "data" ;;
      match data_part with
      | VDict d =>
          d' <~ post_process_data KLICSTUDIO_BASE_URL task_id d ;;
          py_setitem klicstudio_response "data" (VDict d')
      | _ => throw AttributeError      (* data_part.get(...) *)
      end
    else ok klicstudio_response
  else ok klicstudio_response.

(** [f"/api/capability/subtitleTask?taskId={task_id}"] *)
Definition details_endpoint (task_id : string) : string :=
  "/api/capability/subtitleTask?taskId=" ++ task_id.

Definition get_klicstudio_subtitle_task_details (w : world) (KLICSTUDIO_BASE_URL : string)
    (task_id : string) : outcome :=
  try_except KLICSTUDIO_BASE_URL
    (response <- _klicstudio_request w KLICSTUDIO_BASE_URL GET
                   (details_endpoint task_id) NoBody ;;
     klicstudio_response <- lift (resp_json response) ;;
     lift (post_process_details KLICSTUDIO_BASE_URL task_id klicstudio_response))
    (fun e =>
       error_reply ("获取 KlicStudio 字幕任务详情失败 (ID: " ++ task_id ++ "): " ++ str_exn w e)
         (VDict [("task_id", VStr task_id)])).

(** *** 4. Utilities *)

(** Lines 445-453: [inl reply] is the early [return] of the inner handler. *)
Definition decode_text (file_content_bytes : list byte) : result (value + string) :=
  match decode "utf-8" file_content_bytes with
  | inr file_text_content => ok (inr file_text_content)
  | inl UnicodeDecodeError =>
      match decode "latin-1" file_content_bytes with
      | inr file_text_content => ok (inr file_text_content)
      | inl UnicodeDecodeError => ok (inl (error_reply "文件内容无法解码为文本" VNone))
      | inl e => throw e
      end
  | inl e => throw e
  end.

Definition fetch_klicstudio_file_as_text (w : world) (KLICSTUDIO_BASE_URL : string)
    (full_download_url : string) : outcome :=
  try_except KLICSTUDIO_BASE_URL
    (response <- client_request w
                   {| req_method := GET; req_url := full_download_url;
                      req_body_of := NoBody |} ;;
     let file_content_bytes := resp_content response in
     decoded <- lift (decode_text file_content_bytes) ;;
     match decoded with
     | inl reply => ret reply
     | inr file_text_content =>
         path <- lift (match url_path w full_download_url with
                       | Some p => ok p
                       | None => throw InvalidURL
                       end) ;;
         let file_name := basename path in
         let mime_type :=
           match resp_content_type response with Some m => m | None => "text/plain" end in
         ret (VDict [("error", VInt 0);
                     ("msg", VStr "文件内容获取成功");
                     ("data", VDict [("file_name", VStr file_name);
                                     ("text_content", VStr file_text_content);
                                     ("mime_type", VStr mime_type)])])
     end)
    (fun e =>
       error_reply ("下载文件内容失败: " ++ str_exn w e) VNone).

(** *** The connector as a state machine over the stored base URL *)

Inductive tool_call : Type :=
| GetBaseUrl
| SetBaseUrl (new_url : string)
| GetSystemConfig
| UpdateSystemConfig (config_data : value)
| UpdateLlmConfig (base_url api_key model : string)
| UploadFile (server_accessible_file_path : string)
| StartSubtitleTask (a : subtitle_args)
| GetSubtitleTaskDetails (task_id : string)
| FetchFileAsText (full_download_url : string).

Definition invoke (w : world) (KLICSTUDIO_BASE_URL : string) (c : tool_call) : outcome :=
  match c with
  | GetBaseUrl => get_klicstudio_base_url KLICSTUDIO_BASE_URL
  | SetBaseUrl new_url => set_klicstudio_base_url KLICSTUDIO_BASE_URL new_url
  | GetSystemConfig => get_klicstudio_system_config w KLICSTUDIO_BASE_URL
  | UpdateSystemConfig config_data =>
      update_klicstudio_system_config w KLICSTUDIO_BASE_URL config_data
  | UpdateLlmConfig base_url api_key model =>
      update_klicstudio_llm_config w KLICSTUDIO_BASE_URL base_url api_key model
  | UploadFile p => upload_file_to_klicstudio w KLICSTUDIO_BASE_URL p
  | StartSubtitleTask a => start_klicstudio_subtitle_task w KLICSTUDIO_BASE_URL a
  | GetSubtitleTaskDetails task_id =>
      get_klicstudio_subtitle_task_details w KLICSTUDIO_BASE_URL task_id
  | FetchFileAsText url => fetch_klicstudio_file_as_text w KLICSTUDIO_BASE_URL url
  end.

(** The stored base URL after a sequence of calls, each made in the
    environment of its own moment. *)
Fixpoint run (KLICSTUDIO_BASE_URL : string) (calls : list (world * tool_call)) : string :=
  match calls with
  | [] => KLICSTUDIO_BASE_URL
  | (w, c) :: rest => run (out_base (invoke w KLICSTUDIO_BASE_URL c)) rest
  end.

(** *** Readers of a returned dictionary *)

Definition field (k : string) (x : value) : option value :=
  match x with VDict d => dict_get k d | _ => None end.

Definition data_field (k : string) (x : value) : option value :=
  match field "data" x with Some d => field k d | None => None end.

(** The JSON payload of a request, when it has one. *)
Definition json_payload (rq : request) : option dict :=
  match req_body_of rq with JsonBody (VDict p) => Some p | _ => None end.

End Klic.

(* ================================================================== *)
(** ** Vocabulary of the statements *)

Module Spec.
Import PyStr Py Codec Env Klic.

(** The string begins with one of the two accepted schemes. *)
Definition has_scheme (s : string) : bool :=
  startswith s "http://" || startswith s "https://".

(** The string does not end with a slash. *)
Definition no_trailing_slash (s : string) : bool := negb (endswith s "/").

Fixpoint all_slashes (s : string) : bool :=
  match s with
  | EmptyString => true
  | String a t => Ascii.eqb a "/" && all_slashes t
  end.

Fixpoint drop (n : nat) (s : string) : string :=
  match n, s with
  | S n', String _ t => drop n' t
  | _, _ => s
  end.

(** [new_url] is a scheme followed by slashes only, such as "http://" or
    "https:///". *)
Definition scheme_only (new_url : string) : bool :=
  (startswith new_url "http://" && all_slashes (drop 7 new_url)) ||
  (startswith new_url "https://" && all_slashes (drop 8 new_url)).

(** A call that is not a Set Base URL with a scheme-only argument. *)
Definition names_a_host (c : tool_call) : bool :=
  match c with
  | SetBaseUrl new_url => negb (scheme_only new_url)
  | _ => true
  end.


(** What the upstream answers to a request to [endpoint]: the outcome of
    [_klicstudio_request] followed by [response.json()]. *)
Definition upstream_json (w : world) (KLICSTUDIO_BASE_URL : string)
    (method : http_method) (endpoint : string) (kwargs : req_body) : result value :=
  fst (bind (_klicstudio_request w KLICSTUDIO_BASE_URL method endpoint kwargs)
         (fun response => lift (resp_json response)) []).

(** The returned dictionary reports success: its [error] field equals 0. *)
Definition succeeded (reply : value) : bool :=
  match field "error" reply with
  | Some e => py_eq_int e 0
  | None => false
  end.

(** The list already stored under [k], the empty list when [k] is absent. *)
Definition prior_list (k : string) (d : dict) : option (list value) :=
  match dict_get k d with
  | None => Some []
  | Some (VList l) => Some l
  | Some _ => None
  end.

(** Every entry of [subtitle_info], when that is a list, is a dictionary. *)
Definition is_dict (x : value) : bool :=
  match x with VDict _ => true | _ => false end.

Definition entries_are_dicts (data_part : dict) : bool :=
  match dict_get "subtitle_info" data_part with
  | Some (VList items) => forallb is_dict items
  | _ => true
  end.

(** An environment whose upstream answers every accepted request with the
    JSON document [reply], and whose file system holds every path. *)
Definition canned (reply : value) : world :=
  {| http := fun _ => ok {| resp_json := ok reply; resp_content := [];
                            resp_content_type := None |};
     url_path := fun u => Some u;
     path_exists := fun _ => true;
     read_file := fun _ => ok [];
     guess_type := fun _ => None;
     lower := fun s => s;
     str_exn := fun _ => "error" |}.

(** An environment with no reachable server and an empty file system. *)
Definition offline : world :=
  {| http := fun _ => throw (RequestError "connection refused");
     url_path := fun u => Some u;
     path_exists := fun _ => false;
     read_file := fun _ => throw (OSError 2);
     guess_type := fun _ => None;
     lower := fun s => s;
     str_exn := fun _ => "error" |}.

(** An environment serving the body [content] at every URL. *)
Definition serving (content : list byte) : world :=
  {| http := fun _ => ok {| resp_json := throw JSONDecodeError; resp_content := content;
                            resp_content_type := Some "application/x-subrip" |};
     url_path := fun u => Some u;
     path_exists := fun _ => false;
     read_file := fun _ => throw (OSError 2);
     guess_type := fun _ => None;
     lower := fun s => s;
     str_exn := fun _ => "error" |}.

End Spec.

(* ================================================================== *)
(** ** Further vocabulary: requests, configurations, environments *)

Module Scenarios.
Import PyStr Py Codec Env Klic Spec.
Local Open Scope tool_scope.

(** The request [_klicstudio_request] builds. *)
Definition upstream_request (KLICSTUDIO_BASE_URL : string) (method : http_method)
    (endpoint : string) (kwargs : req_body) : request :=
  {| req_method := method; req_url := KLICSTUDIO_BASE_URL ++ endpoint;
     req_body_of := kwargs |}.

(** Lines 216-219: the configuration Update LLM Config re-submits, computed
    from the reply of Get System Config. *)
Definition patched_llm_config (current_config_response : value)
    (base_url api_key model : string) : result value :=
  config_data <~ py_getitem current_config_response "data" ;;
  config_data <~ set_nested config_data "llm" "baseUrl" (VStr base_url) ;;
  config_data <~ set_nested config_data "llm" "apiKey" (VStr api_key) ;;
  set_nested config_data "llm" "model" (VStr model).



(** The most requests a call can send. *)
Definition request_budget (c : tool_call) : nat :=
  match c with
  | GetBaseUrl | SetBaseUrl _ => 0
  | UpdateLlmConfig _ _ _ => 2
  | _ => 1
  end.

(** The names a task-creation payload may use. *)
Definition payload_keys : list string :=
  ["url"; "language"; "bilingual"; "translation_subtitle_pos"; "tts";
   "modal_filter"; "embed_subtitle_video_type"; "origin_lang"; "target_lang";
   "tts_voice_code"; "tts_voice_clone_src_file_url"; "vertical_major_title";
   "vertical_minor_title"; "replace"].

(** An environment whose files exist but cannot be read, as for a
    directory or a file without read permission. *)
Definition unreadable : world :=
  {| http := fun _ => throw (RequestError "connection refused");
     url_path := fun u => Some u;
     path_exists := fun _ => true;
     read_file := fun _ => throw (OSError 21);
     guess_type := fun _ => None;
     lower := fun s => s;
     str_exn := fun _ => "error" |}.

End Scenarios.

Import PyStr Py Codec Env Klic Spec Scenarios.

(* ================================================================== *)
(** ** Strings: prefixes and trailing slashes *)

Lemma prefix_split (p s : string) :
  String.prefix p s = true -> s = p ++ drop (String.length p) s.
Proof.
  revert s; induction p as [|a p IH]; intros s H.
  - now destruct s.
  - destruct s as [|b s]; [discriminate|].
    simpl in H. destruct (ascii_dec a b) as [->|]; [|discriminate].
    simpl. f_equal. now apply IH.
Qed.

Lemma prefix_app (p r : string) : String.prefix p (p ++ r) = true.
Proof.
  induction p as [|a p IH]; simpl.
  - now destruct r.
  - destruct (ascii_dec a a); [exact IH | congruence].
Qed.

Lemma rstrip_decompose (s : string) :
  exists n, s = rstrip "/" s ++ slashes n.
Proof.
  induction s as [|a t [n IH]].
  - now exists O.
  - simpl. destruct (rstrip "/" t) as [|b t'] eqn:E.
    + destruct (Ascii.eqb a "/") eqn:Ea.
      * apply Ascii.eqb_eq in Ea. subst a. exists (S n). simpl. now rewrite IH at 1.
      * exists n. simpl. now rewrite IH at 1.
    + exists n. simpl. now rewrite IH at 1.
Qed.

Lemma rstrip_no_trailing (s : string) : endswith (rstrip "/" s) "/" = false.
Proof.
  induction s as [|a t IH]; [reflexivity|].
  simpl. destruct (rstrip "/" t) as [|b t'] eqn:E.
  - destruct (Ascii.eqb a "/") eqn:Ea; [reflexivity|].
    simpl. now rewrite Ea.
  - change (endswith (String a (String b t')) "/")
      with (String.eqb (String a (String b t')) "/" || endswith (String b t') "/").
    rewrite IH. simpl. now destruct (Ascii.eqb a "/").
Qed.

Lemma rstrip_fixed (s : string) : endswith s "/" = false -> rstrip "/" s = s.
Proof.
  induction s as [|a t IH]; [reflexivity|].
  intros H. simpl in H. apply orb_false_iff in H as [Ha Ht].
  simpl. rewrite (IH Ht). destruct t; [|reflexivity].
  destruct (Ascii.eqb a "/"); [discriminate | reflexivity].
Qed.

Lemma rstrip_empty_iff (s : string) :
  rstrip "/" s = "" <-> all_slashes s = true.
Proof.
  induction s as [|a t IH]; [now split|].
  simpl. destruct (rstrip "/" t) as [|b t'].
  - destruct (Ascii.eqb a "/"); simpl.
    + split; intros _; [now apply IH | reflexivity].
    + split; discriminate.
  - split; [discriminate|]. intros H. apply andb_true_iff in H as [_ H].
    apply IH in H. discriminate.
Qed.

Lemma rstrip_app (p r : string) :
  all_slashes r = false -> rstrip "/" (p ++ r) = p ++ rstrip "/" r.
Proof.
  intros H. induction p as [|a p IH]; [reflexivity|].
  simpl. rewrite IH.
  destruct (p ++ rstrip "/" r) eqn:E; [|reflexivity].
  exfalso. destruct p; [|discriminate].
  simpl in E. apply rstrip_empty_iff in E. congruence.
Qed.

Lemma rstrip_keeps_prefix (p s : string) :
  String.prefix p s = true ->
  all_slashes (drop (String.length p) s) = false ->
  String.prefix p (rstrip "/" s) = true.
Proof.
  intros Hp Hs. rewrite (prefix_split _ _ Hp).
  rewrite rstrip_app by exact Hs. apply prefix_app.
Qed.

Lemma rstrip_keeps_scheme (new_url : string) :
  has_scheme new_url = true -> scheme_only new_url = false ->
  has_scheme (rstrip "/" new_url) = true.
Proof.
  unfold has_scheme, scheme_only, startswith. intros H S.
  apply orb_false_iff in S as [S1 S2].
  apply orb_true_iff in H as [H|H]; rewrite H in *; simpl in S1, S2;
    apply orb_true_iff; [left|right];
    now apply rstrip_keeps_prefix.
Qed.

Example rstrip_examples :
  rstrip "/" "http://klic.example:8888///" = "http://klic.example:8888" /\
  rstrip "/" "http://klic.example/a/b" = "http://klic.example/a/b" /\
  rstrip "/" "http://" = "http:" /\
  rstrip "/" "///" = "".
Proof. repeat split. Qed.

Example basename_examples :
  basename "/srv/media/clip.mp4" = "clip.mp4" /\
  basename "clip.mp4" = "clip.mp4" /\
  basename "/srv/media/" = "".
Proof. repeat split. Qed.

(* ================================================================== *)
(** ** The stored base URL *)

Lemma try_except_base base body handler :
  out_base (try_except base body handler) = base.
Proof. unfold try_except. now destruct (body []) as [[e|v] t]. Qed.

(** Only Set Base URL writes the global. *)
Lemma invoke_base (w : world) (base : string) (c : tool_call) :
  out_base (invoke w base c) =
  match c with
  | SetBaseUrl new_url => out_base (set_klicstudio_base_url base new_url)
  | _ => base
  end.
Proof. destruct c; simpl; try reflexivity; apply try_except_base. Qed.

Lemma set_base_url_accepts (base new_url : string) :
  has_scheme new_url = true ->
  out_base (set_klicstudio_base_url base new_url) = rstrip "/" new_url.
Proof.
  unfold has_scheme, set_klicstudio_base_url. now intros ->.
Qed.

Lemma set_base_url_rejects (base new_url : string) :
  has_scheme new_url = false ->
  out_base (set_klicstudio_base_url base new_url) = base.
Proof.
  unfold has_scheme, set_klicstudio_base_url. now intros ->.
Qed.

Lemma invoke_no_trailing_slash (w : world) (base : string) (c : tool_call) :
  no_trailing_slash base = true ->
  no_trailing_slash (out_base (invoke w base c)) = true.
Proof.
  intros H. rewrite invoke_base. destruct c; try exact H.
  destruct (has_scheme new_url) eqn:E.
  - rewrite set_base_url_accepts by exact E.
    unfold no_trailing_slash. now rewrite rstrip_no_trailing.
  - now rewrite set_base_url_rejects.
Qed.

Lemma run_no_trailing_slash (calls : list (world * tool_call)) (base : string) :
  no_trailing_slash base = true -> no_trailing_slash (run base calls) = true.
Proof.
  revert base; induction calls as [|[w c] rest IH]; intros base H; simpl.
  - exact H.
  - apply IH. now apply invoke_no_trailing_slash.
Qed.

Lemma startup_no_trailing_slash (klicstudio_url : string) :
  no_trailing_slash (startup klicstudio_url) = true.
Proof. unfold no_trailing_slash, startup. now rewrite rstrip_no_trailing. Qed.

(** In every reachable state, stripping the stored URL again changes
    nothing: the [rstrip('/')] applied when URLs are built is the identity. *)
Lemma reachable_rstrip (klicstudio_url : string) (calls : list (world * tool_call)) :
  rstrip "/" (run (startup klicstudio_url) calls) = run (startup klicstudio_url) calls.
Proof.
  apply rstrip_fixed.
  pose proof (run_no_trailing_slash calls _ (startup_no_trailing_slash klicstudio_url)) as H.
  unfold no_trailing_slash in H. now apply negb_true_iff in H.
Qed.

Lemma invoke_has_scheme (w : world) (base : string) (c : tool_call) :
  has_scheme base = true -> names_a_host c = true ->
  has_scheme (out_base (invoke w base c)) = true.
Proof.
  intros H Hc. rewrite invoke_base. destruct c; try exact H.
  simpl in Hc. apply negb_true_iff in Hc.
  destruct (has_scheme new_url) eqn:E.
  - rewrite set_base_url_accepts by exact E. now apply rstrip_keeps_scheme.
  - now rewrite set_base_url_rejects.
Qed.

(* ================================================================== *)
(** ** Set Base URL and Get Base URL *)

(** C4.  Whenever [new_url] starts with "http://" or "https://", Set Base
    URL answers with [error: 0], and a Get Base URL made right after it
    returns [new_url] without its trailing slashes: a string with no
    trailing slash from which [new_url] differs only by slashes at the end. *)
Theorem set_then_get_base_url (base new_url : string) :
  startswith new_url "http://" = true \/ startswith new_url "https://" = true ->
  let o := set_klicstudio_base_url base new_url in
  let stored := rstrip "/" new_url in
  field "error" (out_reply o) = Some (VInt 0) /\
  data_field "klicstudio_base_url" (out_reply (get_klicstudio_base_url (out_base o)))
    = Some (VStr stored) /\
  endswith stored "/" = false /\
  exists n, new_url = stored ++ slashes n.
Proof.
  intros H.
  assert (E : (startswith new_url "http://" || startswith new_url "https://") = true)
    by (apply orb_true_iff; exact H).
  unfold set_klicstudio_base_url. rewrite E. simpl.
  repeat split.
  - apply rstrip_no_trailing.
  - apply rstrip_decompose.
Qed.

Lemma set_then_get_base_url_witness :
  let o := set_klicstudio_base_url "http://127.0.0.1:8888" "https://klic.example:8889//" in
  field "error" (out_reply o) = Some (VInt 0) /\
  data_field "klicstudio_base_url" (out_reply (get_klicstudio_base_url (out_base o)))
    = Some (VStr "https://klic.example:8889").
Proof.
  pose proof (set_then_get_base_url "http://127.0.0.1:8888" "https://klic.example:8889//"
                (or_intror eq_refl)) as H.
  simpl in H. destruct H as (H1 & H2 & _). split; [exact H1 | exact H2].
Defined.

(** C5.  Whenever [new_url] starts with neither "http://" nor "https://",
    Set Base URL answers with [error: 1] and leaves the stored URL as it
    was, so a Get Base URL made right after it returns the earlier value. *)
Theorem set_base_url_rejects_other_schemes (base new_url : string) :
  startswith new_url "http://" = false ->
  startswith new_url "https://" = false ->
  let o := set_klicstudio_base_url base new_url in
  field "error" (out_reply o) = Some (VInt 1) /\
  out_base o = base /\
  out_calls o = [] /\
  out_reply (get_klicstudio_base_url (out_base o)) = out_reply (get_klicstudio_base_url base) /\
  data_field "klicstudio_base_url" (out_reply (get_klicstudio_base_url (out_base o)))
    = Some (VStr base).
Proof.
  intros H1 H2. unfold set_klicstudio_base_url. rewrite H1, H2. simpl.
  repeat split.
Qed.

Lemma set_base_url_rejects_other_schemes_witness :
  let o := set_klicstudio_base_url "http://127.0.0.1:8888" "ftp://klic.example/" in
  field "error" (out_reply o) = Some (VInt 1) /\ out_base o = "http://127.0.0.1:8888".
Proof.
  pose proof (set_base_url_rejects_other_schemes "http://127.0.0.1:8888"
                "ftp://klic.example/" eq_refl eq_refl) as H.
  simpl in H. destruct H as (H1 & H2 & _). split; [exact H1 | exact H2].
Defined.

(** C6, as the code has it.  Whatever the start-up value and whatever calls
    follow, the stored base URL has no trailing slash.  It begins with
    "http://" or "https://" provided the start-up value did after stripping
    and no Set Base URL in the sequence was given a bare scheme (a scheme
    followed by slashes only). *)
Theorem base_url_invariant (klicstudio_url : string) (calls : list (world * tool_call)) :
  no_trailing_slash (run (startup klicstudio_url) calls) = true /\
  (has_scheme (startup klicstudio_url) = true ->
   forallb (fun wc => names_a_host (snd wc)) calls = true ->
   has_scheme (run (startup klicstudio_url) calls) = true).
Proof.
  split.
  - apply run_no_trailing_slash, startup_no_trailing_slash.
  - generalize (startup klicstudio_url) as base.
    induction calls as [|[w c] rest IH]; intros base Hb Hc; simpl in *.
    + exact Hb.
    + apply andb_true_iff in Hc as [Hc Hrest].
      apply IH; [|exact Hrest]. now apply invoke_has_scheme.
Qed.

Lemma base_url_invariant_witness :
  has_scheme (run (startup "http://localhost:8888/")
                [(offline, SetBaseUrl "https://klic.example//");
                 (offline, SetBaseUrl "klic.example");
                 (offline, GetBaseUrl)]) = true.
Proof.
  apply (proj2 (base_url_invariant "http://localhost:8888/"
                  [(offline, SetBaseUrl "https://klic.example//");
                   (offline, SetBaseUrl "klic.example");
                   (offline, GetBaseUrl)])); reflexivity.
Defined.

(** C6 as stated fails on the scheme.  A start-up value is stored without
    any check of its scheme; and from the default start-up value, Set Base
    URL with the bare scheme "http://" is accepted and stores "http:",
    which begins with neither "http://" nor "https://". *)
Lemma base_url_without_scheme :
  (let stored := run (startup "klic.example:8888/") [] in
   stored = "klic.example:8888" /\
   startswith stored "http://" = false /\ startswith stored "https://" = false) /\
  (let o := set_klicstudio_base_url (startup DEFAULT_KLICSTUDIO_URL) "http://" in
   let stored := run (startup DEFAULT_KLICSTUDIO_URL) [(offline, SetBaseUrl "http://")] in
   field "error" (out_reply o) = Some (VInt 0) /\
   stored = "http:" /\
   startswith stored "http://" = false /\ startswith stored "https://" = false).
Proof. repeat split. Qed.

(* ================================================================== *)
(** ** Dictionaries *)

Lemma dict_get_set (k k' : string) (v : value) (d : dict) :
  dict_get k (dict_set k' v d) = if String.eqb k' k then Some v else dict_get k d.
Proof.
  induction d as [|[k0 v0] d IH]; simpl.
  - reflexivity.
  - destruct (String.eqb k0 k') eqn:E0; simpl.
    + apply String.eqb_eq in E0. subst k0.
      now destruct (String.eqb k' k).
    + rewrite IH. destruct (String.eqb k0 k) eqn:E1; [|reflexivity].
      apply String.eqb_eq in E1. subst k0.
      rewrite String.eqb_sym in E0. now rewrite E0.
Qed.

Lemma dict_get_set_same (k : string) (v : value) (d : dict) :
  dict_get k (dict_set k v d) = Some v.
Proof. rewrite dict_get_set. now rewrite String.eqb_refl. Qed.

Lemma dict_get_set_if_not_none (k k' : string) (o : option value) (d : dict) :
  dict_get k (set_if_not_none k' o d) =
  match o with
  | Some v => if String.eqb k' k then Some v else dict_get k d
  | None => dict_get k d
  end.
Proof. destruct o; simpl; [apply dict_get_set | reflexivity]. Qed.

(* ================================================================== *)
(** ** Upload File *)

(** C9.  When the path does not exist on the local file system, Upload File
    answers with [error: 1] and the message "文件未找到: <path>" (file not
    found), sends no request at all, and leaves the stored base URL alone. *)
Theorem upload_missing_file (w : world) (base path : string) :
  path_exists w path = false ->
  let o := upload_file_to_klicstudio w base path in
  out_reply o = error_reply ("文件未找到: " ++ path) VNone /\
  field "error" (out_reply o) = Some (VInt 1) /\
  field "msg" (out_reply o) = Some (VStr ("文件未找到: " ++ path)) /\
  out_calls o = [] /\
  out_base o = base.
Proof.
  intros H. unfold upload_file_to_klicstudio, try_except. rewrite H. simpl.
  repeat split.
Qed.

Lemma upload_missing_file_witness :
  let o := upload_file_to_klicstudio offline "http://127.0.0.1:8888" "/srv/media/clip.mp4" in
  field "error" (out_reply o) = Some (VInt 1) /\ out_calls o = [].
Proof.
  pose proof (upload_missing_file offline "http://127.0.0.1:8888" "/srv/media/clip.mp4"
                eq_refl) as H.
  destruct H as (_ & H1 & _ & H2 & _). split; [exact H1 | exact H2].
Defined.

(** What lines 265-266 do to a reply whose [data] is a non-empty
    dictionary: a [file_path] that is a list is left as it is. *)
Lemma normalize_file_path_list (fields data : dict) (l : list value) :
  dict_get "data" fields = Some (VDict data) -> data <> [] ->
  dict_get "file_path" data = Some (VList l) ->
  normalize_file_path (VDict fields) = ok (VDict fields).
Proof.
  intros Hd Hne Hf. unfold normalize_file_path. simpl.
  unfold dict_get_or_none. rewrite Hd. simpl.
  destruct data; [congruence|].
  unfold dict_get_or_none. now rewrite Hf.
Qed.

(** ... and a [file_path] that is a string is replaced by its first
    character. *)
Lemma normalize_file_path_str (fields data : dict) (s c : string) :
  dict_get "data" fields = Some (VDict data) ->
  dict_get "file_path" data = Some (VStr s) -> first_char s = Some c ->
  normalize_file_path (VDict fields) =
  ok (VDict (dict_set "data" (VDict (dict_set "file_path" (VStr c) data)) fields)).
Proof.
  intros Hd Hf Hc. unfold normalize_file_path. simpl.
  unfold dict_get_or_none. rewrite Hd. simpl.
  destruct data; [discriminate|].
  unfold dict_get_or_none. rewrite Hf, Hc.
  unfold set_nested. simpl. now rewrite Hd.
Qed.

(** C1 on the code.  An upstream reply carrying [file_path] as a one-element
    list comes back with the list untouched, and a reply carrying it as a
    string comes back with only the first character of the path. *)
Lemma upload_file_path_not_normalized :
  let reply_with (p : value) :=
    VDict [("error", VInt 0); ("msg", VStr "ok"); ("data", VDict [("file_path", p)])] in
  let upload (p : value) :=
    upload_file_to_klicstudio (canned (reply_with p)) DEFAULT_KLICSTUDIO_URL "/srv/a.mp4" in
  data_field "file_path" (out_reply (upload (VList [VStr "local:./uploads/a.mp4"])))
    = Some (VList [VStr "local:./uploads/a.mp4"]) /\
  data_field "file_path" (out_reply (upload (VStr "local:./uploads/a.mp4")))
    = Some (VStr "l").
Proof. split; reflexivity. Qed.

(* ================================================================== *)
(** ** Fetch File As Text *)

Lemma latin1_total (bs : list byte) : exists s, decode "latin-1" bs = inr s.
Proof. eexists. reflexivity. Qed.

Lemma decode_text_total (bs : list byte) :
  decode_text bs =
  ok (inr (if utf8_valid bs then string_of_list_byte bs
           else string_of_list_byte (flat_map latin1_char bs))).
Proof.
  unfold decode_text, decode. simpl. now destruct (utf8_valid bs).
Qed.

(** C10.  Decoding as Latin-1 never raises, so [decode_text] never takes
    the early return with the "cannot be decoded" reply; and every body
    that was fetched comes back in an [error: 0] dictionary whose
    [text_content] is its UTF-8 decoding, or its Latin-1 decoding when it is
    not valid UTF-8. *)
Theorem fetched_body_always_decodes :
  (forall bs, exists s, decode "latin-1" bs = inr s) /\
  (forall bs reply, decode_text bs <> ok (inl reply)) /\
  (forall (w : world) (base full_download_url p : string) (resp : response),
     url_path w full_download_url = Some p ->
     http w {| req_method := GET; req_url := full_download_url; req_body_of := NoBody |}
       = inr resp ->
     let o := fetch_klicstudio_file_as_text w base full_download_url in
     exists text,
       decode_text (resp_content resp) = ok (inr text) /\
       field "error" (out_reply o) = Some (VInt 0) /\
       data_field "text_content" (out_reply o) = Some (VStr text)).
Proof.
  split; [exact latin1_total|]. split.
  - intros bs reply. rewrite decode_text_total. discriminate.
  - intros w base url p resp Hp Hr o. subst o.
    eexists. split; [apply decode_text_total|].
    unfold fetch_klicstudio_file_as_text, try_except, client_request, bind, send, lift.
    simpl. rewrite Hp, Hr, decode_text_total. simpl.
    split; reflexivity.
Qed.

Lemma fetched_body_always_decodes_witness :
  let o := fetch_klicstudio_file_as_text (serving [xe9; x41]) "http://127.0.0.1:8888"
             "http://127.0.0.1:8888/api/file/a.srt" in
  exists text,
    field "error" (out_reply o) = Some (VInt 0) /\
    data_field "text_content" (out_reply o) = Some (VStr text).
Proof.
  destruct (proj2 (proj2 fetched_body_always_decodes) (serving [xe9; x41])
              "http://127.0.0.1:8888" "http://127.0.0.1:8888/api/file/a.srt"
              "http://127.0.0.1:8888/api/file/a.srt" _ eq_refl eq_refl)
    as (text & _ & H1 & H2).
  exists text. split; [exact H1 | exact H2].
Defined.

(* ================================================================== *)
(** ** Start Subtitle Task *)

(** Each block of the construction leaves the keys it does not name alone. *)
Lemma add_optional_fields_get (a : subtitle_args) (payload : dict) (k : string) :
  String.eqb "vertical_major_title" k = false ->
  String.eqb "vertical_minor_title" k = false ->
  String.eqb "replace" k = false ->
  dict_get k (add_optional_fields a payload) = dict_get k payload.
Proof.
  intros H1 H2 H3. unfold add_optional_fields.
  assert (E : dict_get k
                (set_if_not_none "vertical_minor_title"
                   (option_map VStr (vertical_minor_title a))
                   (set_if_not_none "vertical_major_title"
                      (option_map VStr (vertical_major_title a)) payload))
              = dict_get k payload).
  { rewrite !dict_get_set_if_not_none, H1, H2.
    now destruct (vertical_minor_title a), (vertical_major_title a). }
  destruct (replace_words a) as [[|x l]|]; try exact E.
  now rewrite dict_get_set, H3.
Qed.

Lemma add_tts_fields_get (a : subtitle_args) (payload : dict) :
  dict_get "tts" payload = Some (VInt (if tts a then 1 else 2)) ->
  exists payload',
    add_tts_fields a payload = inr payload' /\
    forall k, String.eqb "tts_voice_code" k = false ->
              String.eqb "tts_voice_clone_src_file_url" k = false ->
              dict_get k payload' = dict_get k payload.
Proof.
  intros H. unfold add_tts_fields, py_getitem, rbind, ok. rewrite H.
  destruct (tts a).
  - change (py_eq_int (VInt 1) 1) with true. cbv iota.
    destruct (opt_str_truthy (tts_voice_clone_src_file_url a));
      eexists; (split; [reflexivity|]); intros k H1 H2;
      rewrite ?dict_get_set, ?H2, dict_get_set_if_not_none, H1;
      now destruct (tts_voice_code a).
  - change (py_eq_int (VInt 2) 1) with false. cbv iota.
    eexists. split; reflexivity.
Qed.

Lemma add_translation_fields_get (a : subtitle_args) (payload : dict) (k : string) :
  String.eqb "origin_lang" k = false ->
  String.eqb "target_lang" k = false ->
  dict_get k (add_translation_fields a payload) = dict_get k payload.
Proof.
  intros H1 H2. unfold add_translation_fields.
  destruct (opt_str_truthy (origin_lang a)), (opt_str_truthy (target_lang a));
    rewrite ?dict_get_set, ?H1, ?H2; rewrite ?dict_get_set, ?H1; reflexivity.
Qed.

(** The payload construction never raises, and outside the TTS and optional
    fields the payload is what the first two blocks made it. *)
Lemma subtitle_payload_get (a : subtitle_args) :
  exists payload,
    subtitle_payload a = inr payload /\
    forall k, String.eqb "tts_voice_code" k = false ->
              String.eqb "tts_voice_clone_src_file_url" k = false ->
              String.eqb "vertical_major_title" k = false ->
              String.eqb "vertical_minor_title" k = false ->
              String.eqb "replace" k = false ->
              dict_get k payload
              = dict_get k (add_translation_fields a (base_payload a)).
Proof.
  destruct (add_tts_fields_get a (add_translation_fields a (base_payload a)))
    as (p & Hp & Hk).
  { now rewrite add_translation_fields_get. }
  exists (add_optional_fields a p). split.
  - unfold subtitle_payload. now rewrite Hp.
  - intros k H1 H2 H3 H4 H5.
    rewrite add_optional_fields_get by assumption. now apply Hk.
Qed.

(** The call sends one request, carrying the payload, unless httpx rejects
    the URL, in which case it sends none. *)
Lemma start_task_calls (w : world) (base : string) (a : subtitle_args) (payload : dict) :
  subtitle_payload a = inr payload ->
  out_calls (start_klicstudio_subtitle_task w base a) =
  match url_path w (base ++ "/api/capability/subtitleTask") with
  | Some _ => [{| req_method := POST;
                  req_url := base ++ "/api/capability/subtitleTask";
                  req_body_of := JsonBody (VDict payload) |}]
  | None => []
  end.
Proof.
  intros H.
  unfold start_klicstudio_subtitle_task, try_except, _klicstudio_request,
    client_request, bind, lift, send, raise.
  rewrite H. simpl.
  destruct (url_path w (base ++ "/api/capability/subtitleTask")); simpl.
  - destruct (http w _) as [e|r]; simpl; [reflexivity|].
    now destruct (resp_json r).
  - reflexivity.
Qed.

Lemma start_task_payload_sent (w : world) (base : string) (a : subtitle_args)
    (payload : dict) (rq : request) :
  subtitle_payload a = inr payload ->
  In rq (out_calls (start_klicstudio_subtitle_task w base a)) ->
  json_payload rq = Some payload.
Proof.
  intros H Hin. rewrite (start_task_calls w base a payload H) in Hin.
  destruct (url_path w _); simpl in Hin.
  - destruct Hin as [<-|[]]. reflexivity.
  - destruct Hin.
Qed.

(** C3.  The payload of every request Start Subtitle Task sends carries
    [bilingual], [tts] and [modal_filter] as the integer 1 when the
    parameter is [True] and 2 when it is [False]; and a request is sent
    whenever the URL is one httpx accepts. *)
Theorem boolean_flags_encoding (w : world) (base : string) (a : subtitle_args) :
  let o := start_klicstudio_subtitle_task w base a in
  exists payload,
    subtitle_payload a = inr payload /\
    (forall rq, In rq (out_calls o) -> json_payload rq = Some payload) /\
    (url_path w (base ++ "/api/capability/subtitleTask") <> None ->
     exists rq, out_calls o = [rq]) /\
    dict_get "bilingual" payload = Some (VInt (if bilingual a then 1 else 2)) /\
    dict_get "tts" payload = Some (VInt (if tts a then 1 else 2)) /\
    dict_get "modal_filter" payload = Some (VInt (if modal_filter a then 1 else 2)).
Proof.
  intros o. destruct (subtitle_payload_get a) as (payload & Hp & Hk).
  exists payload. split; [exact Hp|]. split; [|split].
  - intros rq. now apply start_task_payload_sent.
  - intros Hu. subst o. rewrite (start_task_calls w base a payload Hp).
    destruct (url_path w _); [eexists; reflexivity | congruence].
  - rewrite !Hk by reflexivity.
    rewrite !add_translation_fields_get by reflexivity.
    repeat split.
Qed.

Lemma boolean_flags_encoding_witness :
  let a := {| media_url_on_klicstudio := "local:./up.mp4"; language := "en";
              origin_lang := None; target_lang := Some "zh_cn"; bilingual := true;
              translation_subtitle_pos := 1; tts := false; tts_voice_code := None;
              tts_voice_clone_src_file_url := None; modal_filter := false;
              embed_subtitle_video_type := "none"; vertical_major_title := None;
              vertical_minor_title := None; replace_words := None |} in
  exists rq payload,
    out_calls (start_klicstudio_subtitle_task offline DEFAULT_KLICSTUDIO_URL a) = [rq] /\
    json_payload rq = Some payload /\
    dict_get "bilingual" payload = Some (VInt 1) /\
    dict_get "tts" payload = Some (VInt 2) /\
    dict_get "modal_filter" payload = Some (VInt 2).
Proof.
  intros a.
  destruct (boolean_flags_encoding offline DEFAULT_KLICSTUDIO_URL a)
    as (payload & _ & Hsent & Hone & Hb & Ht & Hm).
  destruct Hone as [rq Hrq]; [discriminate|].
  exists rq, payload. split; [exact Hrq|]. split.
  - apply Hsent. rewrite Hrq. now left.
  - split; [exact Hb | split; [exact Ht | exact Hm]].
Defined.

(** The two translation fields of a payload, in closed form. *)
Lemma translation_fields_get (a : subtitle_args) (payload : dict) :
  payload = add_translation_fields a (base_payload a) ->
  dict_get "target_lang" payload =
    (if opt_str_truthy (target_lang a) then Some (opt_str_value (target_lang a)) else None) /\
  dict_get "origin_lang" payload =
    (if opt_str_truthy (origin_lang a) then Some (opt_str_value (origin_lang a))
     else if opt_str_truthy (target_lang a) then Some (VStr (language a))
     else None).
Proof.
  intros ->. unfold add_translation_fields.
  destruct (opt_str_truthy (origin_lang a)), (opt_str_truthy (target_lang a));
    rewrite ?dict_get_set; simpl; rewrite ?dict_get_set; simpl; split; reflexivity.
Qed.

(** C2, as the code has it.  When [target_lang] is not supplied ([None] or
    the empty string), the payload of every request sent has no
    [target_lang] field, and has an [origin_lang] field exactly when
    [origin_lang] was supplied non-empty, which it then equals.  When
    [target_lang] is supplied non-empty and [origin_lang] is not supplied,
    the payload's [origin_lang] is the [language] parameter. *)
Theorem translation_fields (w : world) (base : string) (a : subtitle_args) :
  let o := start_klicstudio_subtitle_task w base a in
  exists payload,
    subtitle_payload a = inr payload /\
    (forall rq, In rq (out_calls o) -> json_payload rq = Some payload) /\
    (opt_str_truthy (target_lang a) = false ->
     dict_get "target_lang" payload = None /\
     dict_get "origin_lang" payload =
       if opt_str_truthy (origin_lang a) then Some (opt_str_value (origin_lang a))
       else None) /\
    (opt_str_truthy (target_lang a) = true ->
     opt_str_truthy (origin_lang a) = false ->
     dict_get "target_lang" payload = Some (opt_str_value (target_lang a)) /\
     dict_get "origin_lang" payload = Some (VStr (language a))).
Proof.
  intros o. destruct (subtitle_payload_get a) as (payload & Hp & Hk).
  exists payload. split; [exact Hp|]. split.
  - intros rq. now apply start_task_payload_sent.
  - rewrite !Hk by reflexivity.
    destruct (translation_fields_get a _ eq_refl) as [Ht Ho].
    rewrite Ht, Ho. split.
    + intros ->. split; reflexivity.
    + intros -> ->. split; reflexivity.
Qed.

Lemma translation_fields_witness :
  let a := {| media_url_on_klicstudio := "local:./up.mp4"; language := "ja";
              origin_lang := None; target_lang := Some "en"; bilingual := false;
              translation_subtitle_pos := 1; tts := false; tts_voice_code := None;
              tts_voice_clone_src_file_url := None; modal_filter := false;
              embed_subtitle_video_type := "none"; vertical_major_title := None;
              vertical_minor_title := None; replace_words := None |} in
  exists payload,
    subtitle_payload a = inr payload /\
    dict_get "target_lang" payload = Some (VStr "en") /\
    dict_get "origin_lang" payload = Some (VStr "ja").
Proof.
  intros a.
  destruct (translation_fields offline DEFAULT_KLICSTUDIO_URL a)
    as (payload & Hp & _ & _ & H).
  exists payload. split; [exact Hp|]. apply H; reflexivity.
Defined.

(** C2 as stated fails: with [origin_lang="en"] and no [target_lang], the
    request carries an [origin_lang] field. *)
Lemma origin_lang_sent_without_target_lang :
  let a := {| media_url_on_klicstudio := "local:./up.mp4"; language := "zh_cn";
              origin_lang := Some "en"; target_lang := None; bilingual := false;
              translation_subtitle_pos := 1; tts := false; tts_voice_code := None;
              tts_voice_clone_src_file_url := None; modal_filter := false;
              embed_subtitle_video_type := "none"; vertical_major_title := None;
              vertical_minor_title := None; replace_words := None |} in
  exists rq payload,
    out_calls (start_klicstudio_subtitle_task offline DEFAULT_KLICSTUDIO_URL a) = [rq] /\
    json_payload rq = Some payload /\
    dict_get "target_lang" payload = None /\
    dict_get "origin_lang" payload = Some (VStr "en").
Proof. do 2 eexists. repeat split. Qed.

(** The scenario of the specification: the payload, field for field and in
    the order Python inserts them. *)
Example scenario_payload :
  let a := {| media_url_on_klicstudio := "local:./up.mp4"; language := "en";
              origin_lang := None; target_lang := Some "zh_cn"; bilingual := true;
              translation_subtitle_pos := 1; tts := false; tts_voice_code := None;
              tts_voice_clone_src_file_url := None; modal_filter := false;
              embed_subtitle_video_type := "none"; vertical_major_title := None;
              vertical_minor_title := None; replace_words := None |} in
  subtitle_payload a =
  inr [("url", VStr "local:./up.mp4"); ("language", VStr "en"); ("bilingual", VInt 1);
       ("translation_subtitle_pos", VInt 1); ("tts", VInt 2); ("modal_filter", VInt 2);
       ("embed_subtitle_video_type", VStr "none"); ("origin_lang", VStr "en");
       ("target_lang", VStr "zh_cn")].
Proof. reflexivity. Qed.

(** TTS parameters reach the payload only when [tts] is [True]. *)
Example tts_fields_need_tts :
  let a (flag : bool) :=
    {| media_url_on_klicstudio := "local:./up.mp4"; language := "en";
       origin_lang := None; target_lang := None; bilingual := false;
       translation_subtitle_pos := 1; tts := flag; tts_voice_code := Some 2;
       tts_voice_clone_src_file_url := Some "local:./uploads/voice.wav";
       modal_filter := false; embed_subtitle_video_type := "none";
       vertical_major_title := None; vertical_minor_title := None;
       replace_words := Some ["a|b"] |} in
  subtitle_payload (a false) =
  inr [("url", VStr "local:./up.mp4"); ("language", VStr "en"); ("bilingual", VInt 2);
       ("translation_subtitle_pos", VInt 1); ("tts", VInt 2); ("modal_filter", VInt 2);
       ("embed_subtitle_video_type", VStr "none"); ("replace", VList [VStr "a|b"])] /\
  subtitle_payload (a true) =
  inr [("url", VStr "local:./up.mp4"); ("language", VStr "en"); ("bilingual", VInt 2);
       ("translation_subtitle_pos", VInt 1); ("tts", VInt 1); ("modal_filter", VInt 2);
       ("embed_subtitle_video_type", VStr "none"); ("tts_voice_code", VInt 2);
       ("tts_voice_clone_src_file_url", VStr "local:./uploads/voice.wav");
       ("replace", VList [VStr "a|b"])].
Proof. split; reflexivity. Qed.

(* ================================================================== *)
(** ** Get Subtitle Task Details *)




Section PostProcessing.

(** The environment of the call, the stored base URL and the task queried. *)
Variable w : world.
Variables base task_id : string.

(** The reply of the tool, given what the upstream answered. *)
Lemma details_reply (r : value) :
  upstream_json w base GET (details_endpoint task_id) NoBody = inr r ->
  out_reply (get_klicstudio_subtitle_task_details w base task_id) =
  match post_process_details base task_id r with
  | inr v => v
  | inl e =>
      error_reply ("获取 KlicStudio 字幕任务详情失败 (ID: " ++ task_id ++ "): " ++ str_exn w e)
        (VDict [("task_id", VStr task_id)])
  end.
Proof.
  unfold upstream_json, get_klicstudio_subtitle_task_details, try_except, bind, lift.
  destruct (_klicstudio_request w base GET (details_endpoint task_id) NoBody [])
    as [[e|resp] t]; simpl; [discriminate|].
  intros ->. now destruct (post_process_details base task_id r).
Qed.

(** A reply that reports success is the post-processed upstream answer. *)
Lemma details_succeeded (r : value) :
  upstream_json w base GET (details_endpoint task_id) NoBody = inr r ->
  succeeded (out_reply (get_klicstudio_subtitle_task_details w base task_id)) = true ->
  post_process_details base task_id r
  = inr (out_reply (get_klicstudio_subtitle_task_details w base task_id)).
Proof.
  intros Hr. rewrite (details_reply _ Hr).
  destruct (post_process_details base task_id r); [discriminate | reflexivity].
Qed.

(** Post-processing of a successful answer whose [data] is a dictionary. *)
Lemma post_process_details_data (r v : value) (d : dict) :
  field "data" r = Some (VDict d) ->
  post_process_details base task_id r = inr v ->
  succeeded v = true ->
  exists d', post_process_data base task_id d = inr d' /\
             field "data" v = Some (VDict d') /\
             forall k, data_field k v = dict_get k d'.
Proof.
  destruct r as [| | | | | |fields]; try discriminate.
  simpl. intros Hd. unfold post_process_details. simpl.
  destruct (py_eq_int (dict_get_or_none "error" fields) 0) eqn:Ee; simpl.
  - unfold dict_mem. rewrite Hd. simpl.
    destruct (post_process_data base task_id d) as [e|d']; simpl; [discriminate|].
    intros [= <-] _. exists d'. split; [reflexivity|].
    assert (F : field "data" (VDict (dict_set "data" (VDict d') fields)) = Some (VDict d'))
      by (simpl; apply dict_get_set_same).
    split; [exact F|]. intros k. unfold data_field. now rewrite F.
  - intros [= <-]. unfold succeeded. simpl.
    unfold dict_get_or_none in Ee.
    destruct (dict_get "error" fields); [congruence | discriminate].
Qed.

Lemma fix_subtitle_info_get (d d' : dict) (k : string) :
  fix_subtitle_info base d = inr d' ->
  String.eqb "subtitle_info" k = false ->
  dict_get k d' = dict_get k d.
Proof.
  unfold fix_subtitle_info. intros H Hk.
  destruct (dict_get "subtitle_info" d) as [[| | | | |items|]|];
    try (injection H as <-; reflexivity).
  destruct (fix_subtitle_items base items); simpl in H; [discriminate|].
  injection H as <-. now rewrite dict_get_set, Hk.
Qed.

Lemma fix_speech_url_get (d : dict) (k : string) :
  String.eqb "speech_download_url" k = false ->
  dict_get k (fix_speech_url base d) = dict_get k d.
Proof.
  unfold fix_speech_url. intros Hk.
  destruct (dict_get "speech_download_url" d) as [[| | | |s| |]|]; try reflexivity.
  destruct (negb (String.eqb s "") && negb (startswith s "http")); [|reflexivity].
  now rewrite dict_get_set, Hk.
Qed.

Lemma append_at_list (k : string) (v : value) (d : dict) (l : list value) :
  dict_get k d = Some (VList l) ->
  append_at k v d = inr (dict_set k (VList (l ++ [v])) d).
Proof. intros H. unfold append_at. simpl. now rewrite H. Qed.

(** Lines 398-413 append the two entries to what the list held, and raise
    exactly when the key holds something that is not a list. *)
Lemma add_embedded_video_urls_spec (d : dict) :
  match prior_list "potential_embedded_video_urls" d with
  | Some prior =>
      exists d', add_embedded_video_urls base task_id d = inr d' /\
                 dict_get "potential_embedded_video_urls" d'
                 = Some (VList (prior ++ [h_embed_entry base task_id;
                                          v_embed_entry base task_id]))
  | None => add_embedded_video_urls base task_id d = inl AttributeError
  end.
Proof.
  unfold prior_list, add_embedded_video_urls, dict_mem.
  destruct (dict_get "potential_embedded_video_urls" d) as [x|] eqn:E; simpl.
  - destruct x; try (unfold append_at; simpl; rewrite E; reflexivity).
    rewrite (append_at_list _ _ _ _ E). simpl.
    rewrite (append_at_list _ _ _ (l ++ [h_embed_entry base task_id]))
      by apply dict_get_set_same.
    eexists. split; [reflexivity|].
    rewrite dict_get_set_same. now rewrite <- app_assoc.
  - rewrite (append_at_list _ _ _ []) by apply dict_get_set_same. simpl.
    rewrite (append_at_list _ _ _ [h_embed_entry base task_id])
      by apply dict_get_set_same.
    eexists. split; [reflexivity|]. now rewrite dict_get_set_same.
Qed.

(** What post-processing does to the embedded-video list of the data part. *)
Lemma post_process_data_embedded (d d' : dict) :
  post_process_data base task_id d = inr d' ->
  if py_eq_int (dict_get_or_none "process_percent" d) 100 then
    exists prior,
      prior_list "potential_embedded_video_urls" d = Some prior /\
      dict_get "potential_embedded_video_urls" d'
      = Some (VList (prior ++ [h_embed_entry base task_id; v_embed_entry base task_id]))
  else
    dict_get "potential_embedded_video_urls" d'
    = dict_get "potential_embedded_video_urls" d.
Proof.
  unfold post_process_data.
  destruct (fix_subtitle_info base d) as [e|d1] eqn:E1; simpl; [discriminate|].
  assert (G : dict_get "potential_embedded_video_urls" (fix_speech_url base d1)
              = dict_get "potential_embedded_video_urls" d).
  { rewrite fix_speech_url_get by reflexivity.
    now apply (fix_subtitle_info_get d d1). }
  destruct (py_eq_int (dict_get_or_none "process_percent" d) 100).
  - intros H.
    pose proof (add_embedded_video_urls_spec (fix_speech_url base d1)) as S.
    unfold prior_list in *. rewrite G in S.
    destruct (dict_get "potential_embedded_video_urls" d) as [[| | | | |l|]|];
      try congruence.
    + destruct S as (d2 & S1 & S2). exists l. split; [reflexivity|]. congruence.
    + destruct S as (d2 & S1 & S2). exists []. split; [reflexivity|]. congruence.
  - intros [= <-]. exact G.
Qed.

(** A well-shaped answer is never turned into an error: when the entries of
    [subtitle_info] are dictionaries and [potential_embedded_video_urls],
    if sent, is a list, post-processing completes. *)
Lemma fix_subtitle_items_dicts (items : list value) :
  forallb is_dict items = true -> exists items', fix_subtitle_items base items = inr items'.
Proof.
  induction items as [|item rest IH]; intros H; simpl in *.
  - eexists. reflexivity.
  - apply andb_true_iff in H as [Hi Hr]. destruct (IH Hr) as [rest' E].
    rewrite E. destruct item as [| | | | | |it]; try discriminate.
    unfold fix_subtitle_item. simpl. unfold dict_mem.
    destruct (dict_get "download_url" it) as [[| | | |s| |]|]; simpl;
      try (eexists; reflexivity).
    destruct (startswith s "http"); simpl; eexists; reflexivity.
Qed.

Lemma post_process_data_well_shaped (d : dict) :
  entries_are_dicts d = true ->
  prior_list "potential_embedded_video_urls" d <> None ->
  exists d', post_process_data base task_id d = inr d'.
Proof.
  unfold entries_are_dicts, post_process_data. intros He Hp.
  assert (E : exists d1, fix_subtitle_info base d = inr d1).
  { unfold fix_subtitle_info.
    destruct (dict_get "subtitle_info" d) as [[| | | | |items|]|];
      try (eexists; reflexivity).
    destruct (fix_subtitle_items_dicts items He) as [items' ->].
    eexists. reflexivity. }
  destruct E as [d1 E]. rewrite E. simpl.
  destruct (py_eq_int (dict_get_or_none "process_percent" d) 100);
    [|eexists; reflexivity].
  pose proof (add_embedded_video_urls_spec (fix_speech_url base d1)) as S.
  unfold prior_list in *.
  rewrite fix_speech_url_get in S by reflexivity.
  rewrite (fix_subtitle_info_get d d1 _ E) in S by reflexivity.
  destruct (dict_get "potential_embedded_video_urls" d) as [[| | | | |l|]|];
    try congruence; destruct S as (d' & S & _); now exists d'.
Qed.


Lemma fix_subtitle_items_nth (items items' : list value) :
  fix_subtitle_items base items = inr items' ->
  length items' = length items /\
  forall i item, nth_error items i = Some item ->
    exists item', nth_error items' i = Some item' /\
                  fix_subtitle_item base item = inr item'.
Proof.
  revert items'. induction items as [|x rest IH]; intros items' H; simpl in H.
  - injection H as <-. split; [reflexivity|]. intros [|i] item; discriminate.
  - destruct (fix_subtitle_item base x) as [e|x'] eqn:Ex; simpl in H; [discriminate|].
    destruct (fix_subtitle_items base rest) as [e|rest'] eqn:Er; simpl in H;
      [discriminate|].
    injection H as <-. destruct (IH rest' eq_refl) as [Hl Hn].
    split; [simpl; now rewrite Hl|].
    intros [|i] item Hi; simpl in *.
    + injection Hi as <-. now exists x'.
    + now apply Hn.
Qed.

Lemma append_at_get (k k' : string) (v : value) (d d' : dict) :
  append_at k v d = inr d' -> String.eqb k k' = false ->
  dict_get k' d' = dict_get k' d.
Proof.
  unfold append_at. simpl.
  destruct (dict_get k d) as [x|]; simpl; [|discriminate].
  destruct (py_append x v); simpl; [discriminate|].
  intros [= <-] Hk. now rewrite dict_get_set, Hk.
Qed.

Lemma add_embedded_video_urls_get (k : string) (d d' : dict) :
  add_embedded_video_urls base task_id d = inr d' ->
  String.eqb "potential_embedded_video_urls" k = false ->
  dict_get k d' = dict_get k d.
Proof.
  unfold add_embedded_video_urls. intros H Hk.
  destruct (append_at "potential_embedded_video_urls" (h_embed_entry base task_id) _)
    as [e|d1] eqn:E1; simpl in H; [discriminate|].
  rewrite (append_at_get _ _ _ _ _ H Hk), (append_at_get _ _ _ _ _ E1 Hk).
  destruct (negb (dict_mem "potential_embedded_video_urls" d)); [|reflexivity].
  now rewrite dict_get_set, Hk.
Qed.

Lemma fix_speech_url_speech (d : dict) :
  dict_get "speech_download_url" (fix_speech_url base d) =
  match dict_get "speech_download_url" d with
  | Some (VStr s) =>
      Some (VStr (if negb (String.eqb s "") && negb (startswith s "http")
                  then absolute_url base s else s))
  | other => other
  end.
Proof.
  unfold fix_speech_url.
  destruct (dict_get "speech_download_url" d) as [[| | | |s| |]|] eqn:E;
    try exact E.
  destruct (negb (String.eqb s "") && negb (startswith s "http"));
    [apply dict_get_set_same | exact E].
Qed.

(** The two rewritten fields of the data part after post-processing. *)
Lemma post_process_data_urls (d d' : dict) :
  post_process_data base task_id d = inr d' ->
  dict_get "speech_download_url" d'
    = dict_get "speech_download_url" (fix_speech_url base d) /\
  forall items, dict_get "subtitle_info" d = Some (VList items) ->
    exists items', fix_subtitle_items base items = inr items' /\
                   dict_get "subtitle_info" d' = Some (VList items').
Proof.
  unfold post_process_data.
  destruct (fix_subtitle_info base d) as [e|d1] eqn:E1; simpl; [discriminate|].
  intros H.
  assert (G : forall k, String.eqb "potential_embedded_video_urls" k = false ->
                        dict_get k d' = dict_get k (fix_speech_url base d1)).
  { intros k Hk.
    destruct (py_eq_int (dict_get_or_none "process_percent" d) 100).
    - now apply add_embedded_video_urls_get.
    - now injection H as <-. }
  split.
  - rewrite G by reflexivity. rewrite !fix_speech_url_speech.
    now rewrite (fix_subtitle_info_get d d1 _ E1).
  - intros items Hi. rewrite G by reflexivity.
    rewrite fix_speech_url_get by reflexivity.
    unfold fix_subtitle_info in E1. rewrite Hi in E1.
    destruct (fix_subtitle_items base items) as [e|items']; simpl in E1;
      [discriminate|].
    injection E1 as <-. exists items'. split; [reflexivity|].
    apply dict_get_set_same.
Qed.

End PostProcessing.

(* ================================================================== *)
(** ** Embedded-video links and relative download URLs *)

(** C7.  Let the stored base URL be any the connector can hold, let the
    upstream answer a task-details request with a document whose [data] is
    a dictionary, and let the call report success.  If [process_percent]
    equals 100, the returned [potential_embedded_video_urls] is the list
    the upstream sent (empty when it sent none) followed by exactly two
    entries, whose download URLs are the base URL followed by
    "/api/file/tasks/<task_id>/output/horizontal_embed.mp4" and
    ".../vertical_embed.mp4".  Otherwise the field comes back as the
    upstream sent it, absent when it was absent. *)
Theorem embedded_video_urls_appended
    (w : world) (klicstudio_url : string) (calls : list (world * tool_call))
    (task_id : string) (r : value) (d : dict) :
  let base := run (startup klicstudio_url) calls in
  let o := get_klicstudio_subtitle_task_details w base task_id in
  upstream_json w base GET (details_endpoint task_id) NoBody = inr r ->
  field "data" r = Some (VDict d) ->
  succeeded (out_reply o) = true ->
  if py_eq_int (dict_get_or_none "process_percent" d) 100 then
    exists prior,
      prior_list "potential_embedded_video_urls" d = Some prior /\
      data_field "potential_embedded_video_urls" (out_reply o)
      = Some (VList (prior ++
          [VDict [("name", VStr "嵌入字幕的横屏视频 (可能存在)");
                  ("download_url",
                   VStr (base ++ "/api/file/tasks/" ++ task_id
                              ++ "/output/horizontal_embed.mp4"))];
           VDict [("name", VStr "嵌入字幕的竖屏视频 (可能存在)");
                  ("download_url",
                   VStr (base ++ "/api/file/tasks/" ++ task_id
                              ++ "/output/vertical_embed.mp4"))]]))
  else
    data_field "potential_embedded_video_urls" (out_reply o)
    = dict_get "potential_embedded_video_urls" d.
Proof.
  intros base o Hr Hd Hs.
  pose proof (details_succeeded w base task_id r Hr Hs) as Hp.
  destruct (post_process_details_data base task_id r _ d Hd Hp Hs)
    as (d' & Hd' & _ & Hk).
  fold o in Hk. rewrite Hk.
  pose proof (post_process_data_embedded base task_id d d' Hd') as H.
  unfold h_embed_entry, v_embed_entry, embed_entry, h_embed_path, v_embed_path in H.
  unfold base in H at 1 2. rewrite reachable_rstrip in H. exact H.
Qed.

Lemma embedded_video_urls_appended_witness :
  let d := [("process_percent", VInt 100); ("speech_download_url", VStr "")] in
  let r := VDict [("error", VInt 0); ("msg", VStr "ok"); ("data", VDict d)] in
  let o := get_klicstudio_subtitle_task_details (canned r)
             (run (startup "http://127.0.0.1:8888/") []) "T1" in
  data_field "potential_embedded_video_urls" (out_reply o)
  = Some (VList
      [VDict [("name", VStr "嵌入字幕的横屏视频 (可能存在)");
              ("download_url",
               VStr "http://127.0.0.1:8888/api/file/tasks/T1/output/horizontal_embed.mp4")];
       VDict [("name", VStr "嵌入字幕的竖屏视频 (可能存在)");
              ("download_url",
               VStr "http://127.0.0.1:8888/api/file/tasks/T1/output/vertical_embed.mp4")]]).
Proof.
  intros d r o.
  pose proof (embedded_video_urls_appended (canned r) "http://127.0.0.1:8888/" [] "T1" r d
                eq_refl eq_refl eq_refl) as H.
  change (py_eq_int (dict_get_or_none "process_percent" d) 100) with true in H.
  destruct H as (prior & Hp & H).
  injection Hp as <-. exact H.
Defined.




(** A well-shaped upstream answer is reported as a success. *)
Lemma well_shaped_details_succeed
    (w : world) (base task_id : string) (fields d : dict) :
  upstream_json w base GET (details_endpoint task_id) NoBody = inr (VDict fields) ->
  succeeded (VDict fields) = true ->
  dict_get "data" fields = Some (VDict d) ->
  entries_are_dicts d = true ->
  prior_list "potential_embedded_video_urls" d <> None ->
  succeeded (out_reply (get_klicstudio_subtitle_task_details w base task_id)) = true.
Proof.
  intros Hr Hs Hd He Hp. rewrite (details_reply _ _ _ _ Hr).
  destruct (post_process_data_well_shaped base task_id d He Hp) as [d' Hd'].
  unfold post_process_details. simpl.
  unfold succeeded in Hs. simpl in Hs. unfold dict_get_or_none.
  destruct (dict_get "error" fields) as [e|] eqn:Ee; [|discriminate].
  rewrite Hs. simpl. unfold dict_mem. rewrite Hd. simpl. rewrite Hd'. simpl.
  unfold succeeded. simpl. rewrite dict_get_set. simpl. now rewrite Ee.
Qed.

(* ================================================================== *)
(** ** The stored base URL over time *)

Lemma run_app (base : string) (l1 l2 : list (world * tool_call)) :
  run base (l1 ++ l2) = run (run base l1) l2.
Proof.
  revert base; induction l1 as [|[w c] l1 IH]; intros base; simpl.
  - reflexivity.
  - apply IH.
Qed.

(** X1.  The last accepted Set Base URL wins: a sequence of calls that ends
    with Set Base URL on a URL with an accepted scheme stores that URL
    stripped of its trailing slashes, whatever came before; a sequence that
    ends with any other call, or with a rejected Set Base URL, stores what
    the sequence without its last call stored. *)
Theorem last_accepted_set_wins
    (base : string) (calls : list (world * tool_call)) (w : world) (c : tool_call) :
  run base (calls ++ [(w, c)]) =
  match c with
  | SetBaseUrl new_url =>
      if has_scheme new_url then rstrip "/" new_url else run base calls
  | _ => run base calls
  end.
Proof.
  rewrite run_app. simpl. rewrite invoke_base.
  destruct c; try reflexivity.
  destruct (has_scheme new_url) eqn:E.
  - now apply set_base_url_accepts.
  - now apply set_base_url_rejects.
Qed.

(** X2.  Handing the value Get Base URL returns back to Set Base URL: when
    the stored URL, in a state the connector can reach, begins with an
    accepted scheme, the call succeeds and stores the same URL again. *)
Theorem set_what_get_returned
    (klicstudio_url : string) (calls : list (world * tool_call)) (stored : string) :
  let base := run (startup klicstudio_url) calls in
  data_field "klicstudio_base_url" (out_reply (get_klicstudio_base_url base))
    = Some (VStr stored) ->
  has_scheme stored = true ->
  let o := set_klicstudio_base_url base stored in
  out_base o = base /\
  field "error" (out_reply o) = Some (VInt 0) /\
  data_field "new_klicstudio_base_url" (out_reply o) = Some (VStr base) /\
  data_field "previous_klicstudio_base_url" (out_reply o) = Some (VStr base).
Proof.
  intros base Hget Hs. simpl in Hget. injection Hget as <-.
  unfold set_klicstudio_base_url. unfold has_scheme in Hs. rewrite Hs. simpl.
  unfold base. rewrite reachable_rstrip. repeat split.
Qed.

Lemma set_what_get_returned_witness :
  let base := run (startup "https://klic.example:8889/") [(offline, GetSystemConfig)] in
  out_base (set_klicstudio_base_url base "https://klic.example:8889") = base.
Proof.
  exact (proj1 (set_what_get_returned "https://klic.example:8889/"
                  [(offline, GetSystemConfig)] "https://klic.example:8889"
                  eq_refl eq_refl)).
Defined.

(* ================================================================== *)
(** ** Requests *)

Lemma try_except_calls (base : string) (body : M value) (handler : exn -> value) :
  out_calls (try_except base body handler) = snd (body []).
Proof. unfold try_except. now destruct (body []) as [[e|v] t]. Qed.


(** A continuation that sends nothing adds nothing to the log. *)
Lemma bind_quiet {A B} (m : M A) (k : A -> M B) (t : list request) :
  (forall a t', snd (k a t') = t') -> snd (bind m k t) = snd (m t).
Proof.
  intros Hk. unfold bind. destruct (m t) as [[e|a] t']; simpl; [reflexivity|].
  apply Hk.
Qed.

Lemma lift_quiet {A} (r : result A) (t : list request) : snd (lift r t) = t.
Proof. reflexivity. Qed.

Lemma bind_lift_quiet {A B} (r : result A) (f : A -> result B) (t : list request) :
  snd (bind (lift r) (fun a => lift (f a)) t) = t.
Proof. unfold bind, lift. now destruct r. Qed.

Lemma klicstudio_request_calls (w : world) (base : string) (method : http_method)
    (endpoint : string) (kwargs : req_body) (t : list request) :
  snd (_klicstudio_request w base method endpoint kwargs t) =
  match url_path w (base ++ endpoint) with
  | Some _ => (t ++ [upstream_request base method endpoint kwargs])%list
  | None => t
  end.
Proof.
  unfold _klicstudio_request, client_request, upstream_request. simpl.
  now destruct (url_path w (base ++ endpoint)).
Qed.

Lemma get_system_config_calls (w : world) (base : string) :
  out_calls (get_klicstudio_system_config w base) =
  match url_path w (base ++ "/api/config") with
  | Some _ => [upstream_request base GET "/api/config" NoBody]
  | None => []
  end.
Proof.
  unfold get_klicstudio_system_config. rewrite try_except_calls.
  rewrite bind_quiet by (intros; apply bind_lift_quiet with (f := fun x => ok x)).
  apply klicstudio_request_calls.
Qed.

Lemma update_system_config_calls (w : world) (base : string) (config_data : value) :
  out_calls (update_klicstudio_system_config w base config_data) =
  match url_path w (base ++ "/api/config") with
  | Some _ => [upstream_request base POST "/api/config" (JsonBody config_data)]
  | None => []
  end.
Proof.
  unfold update_klicstudio_system_config. rewrite try_except_calls.
  rewrite bind_quiet; [apply klicstudio_request_calls|].
  intros resp t'. unfold bind, lift, ret.
  destruct (resp_json resp) as [e|r]; simpl; [reflexivity|].
  destruct (py_get r "error") as [e|err]; simpl; [reflexivity|].
  destruct (py_eq_int err 0); simpl; [reflexivity|].
  now destruct (py_get_default r "msg" (VStr "未知错误")).
Qed.

Lemma details_calls (w : world) (base task_id : string) :
  out_calls (get_klicstudio_subtitle_task_details w base task_id) =
  match url_path w (base ++ details_endpoint task_id) with
  | Some _ => [upstream_request base GET (details_endpoint task_id) NoBody]
  | None => []
  end.
Proof.
  unfold get_klicstudio_subtitle_task_details. rewrite try_except_calls.
  rewrite bind_quiet by (intros; apply bind_lift_quiet).
  apply klicstudio_request_calls.
Qed.

Lemma upload_calls (w : world) (base path : string) :
  out_calls (upload_file_to_klicstudio w base path) =
  if path_exists w path then
    match read_file w path, url_path w (base ++ "/api/file") with
    | inr file_content, Some _ =>
        [upstream_request base POST "/api/file"
           (FilesBody (basename path) file_content
              match guess_type w path with
              | Some m => m
              | None => fallback_mime_type w (basename path)
              end)]
    | _, _ => []
    end
  else [].
Proof.
  unfold upload_file_to_klicstudio. rewrite try_except_calls.
  destruct (path_exists w path); simpl; [|reflexivity].
  unfold bind at 1. unfold lift at 1.
  destruct (read_file w path) as [e|file_content]; simpl; [reflexivity|].
  rewrite bind_quiet by (intros; apply bind_lift_quiet).
  rewrite klicstudio_request_calls.
  now destruct (url_path w (base ++ "/api/file")).
Qed.

Lemma fetch_calls (w : world) (base url : string) :
  out_calls (fetch_klicstudio_file_as_text w base url) =
  match url_path w url with
  | Some _ => [{| req_method := GET; req_url := url; req_body_of := NoBody |}]
  | None => []
  end.
Proof.
  unfold fetch_klicstudio_file_as_text. rewrite try_except_calls.
  rewrite bind_quiet.
  - unfold client_request. simpl. now destruct (url_path w url).
  - intros resp t'. unfold bind, lift. rewrite decode_text_total. simpl.
    now destruct (url_path w url).
Qed.

Lemma start_task_calls_budget (w : world) (base : string) (a : subtitle_args) :
  out_calls (start_klicstudio_subtitle_task w base a) = [] \/
  exists payload,
    out_calls (start_klicstudio_subtitle_task w base a) =
    [upstream_request base POST "/api/capability/subtitleTask" (JsonBody (VDict payload))].
Proof.
  destruct (subtitle_payload_get a) as (payload & Hp & _).
  rewrite (start_task_calls w base a payload Hp).
  destruct (url_path w _); [right; now exists payload | now left].
Qed.

(** The configuration tools as Update LLM Config chains them. *)
Lemma update_llm_config_run (w : world) (base base_url api_key model : string) :
  let fetched := get_klicstudio_system_config w base in
  let failure e := error_reply ("更新 LLM 配置失败: " ++ str_exn w e) VNone in
  update_klicstudio_llm_config w base base_url api_key model =
  match py_get (out_reply fetched) "error" with
  | inl e => {| out_base := base; out_reply := failure e; out_calls := out_calls fetched |}
  | inr err =>
      if negb (py_eq_int err 0) then
        {| out_base := base; out_reply := out_reply fetched;
           out_calls := out_calls fetched |}
      else
        match patched_llm_config (out_reply fetched) base_url api_key model with
        | inl e =>
            {| out_base := base; out_reply := failure e; out_calls := out_calls fetched |}
        | inr config_data =>
            let sent := update_klicstudio_system_config w base config_data in
            {| out_base := base; out_reply := out_reply sent;
               out_calls := (out_calls fetched ++ out_calls sent)%list |}
        end
  end.
Proof.
  intros fetched failure. unfold update_klicstudio_llm_config, try_except, bind,
    await_tool, lift, ret, patched_llm_config. fold fetched. simpl.
  destruct (py_get (out_reply fetched) "error") as [e|err]; simpl; [reflexivity|].
  destruct (py_eq_int err 0); simpl; [|reflexivity].
  destruct (py_getitem (out_reply fetched) "data") as [e|c0]; simpl; [reflexivity|].
  destruct (set_nested c0 "llm" "baseUrl" (VStr base_url)) as [e|c1]; simpl;
    [reflexivity|].
  destruct (set_nested c1 "llm" "apiKey" (VStr api_key)) as [e|c2]; simpl;
    [reflexivity|].
  destruct (set_nested c2 "llm" "model" (VStr model)) as [e|c3]; simpl; reflexivity.
Qed.

Lemma update_llm_config_calls_cases (w : world) (base base_url api_key model : string) :
  out_calls (update_klicstudio_llm_config w base base_url api_key model)
    = out_calls (get_klicstudio_system_config w base) \/
  exists config_data,
    succeeded (out_reply (get_klicstudio_system_config w base)) = true /\
    patched_llm_config (out_reply (get_klicstudio_system_config w base))
      base_url api_key model = inr config_data /\
    out_reply (update_klicstudio_llm_config w base base_url api_key model)
      = out_reply (update_klicstudio_system_config w base config_data) /\
    out_calls (update_klicstudio_llm_config w base base_url api_key model)
      = (out_calls (get_klicstudio_system_config w base)
         ++ out_calls (update_klicstudio_system_config w base config_data))%list.
Proof.
  rewrite (update_llm_config_run w base base_url api_key model). cbv zeta.
  destruct (out_reply (get_klicstudio_system_config w base)) as [| | | | | |fields] eqn:Ef;
    simpl; try (now left).
  destruct (py_eq_int (dict_get_or_none "error" fields) 0) eqn:Ee; simpl; [|now left].
  destruct (patched_llm_config (VDict fields) base_url api_key model)
    as [e|config_data] eqn:Ep; simpl; [now left|].
  right. exists config_data. repeat split.
  unfold succeeded. simpl. unfold dict_get_or_none in Ee.
  destruct (dict_get "error" fields); [exact Ee | discriminate].
Qed.

(** X3.  A call sends at most one request, Update LLM Config at most two,
    and Get Base URL and Set Base URL none.  A request of Fetch File As Text
    is a GET of exactly the URL it was given; every other request goes to
    the stored base URL followed, with nothing in between, by a path that
    begins with "/api/". *)
Theorem requests_of_a_call (w : world) (base : string) (c : tool_call) :
  (length (out_calls (invoke w base c)) <= request_budget c)%nat /\
  forall rq, In rq (out_calls (invoke w base c)) ->
    match c with
    | FetchFileAsText full_download_url =>
        rq = {| req_method := GET; req_url := full_download_url; req_body_of := NoBody |}
    | _ =>
        exists endpoint,
          req_url rq = base ++ endpoint /\ startswith endpoint "/api/" = true
    end.
Proof.
  destruct c; simpl.
  - split; [apply le_n | intros rq []].
  - split; [|unfold set_klicstudio_base_url;
             destruct (negb _); intros rq []].
    unfold set_klicstudio_base_url. destruct (negb _); apply le_n.
  - rewrite get_system_config_calls. destruct (url_path w _); simpl.
    + split; [apply le_n|]. intros rq [<-|[]]. now exists "/api/config".
    + split; [apply Nat.le_0_l | intros rq []].
  - rewrite update_system_config_calls. destruct (url_path w _); simpl.
    + split; [apply le_n|]. intros rq [<-|[]]. now exists "/api/config".
    + split; [apply Nat.le_0_l | intros rq []].
  - assert (G : (length (out_calls (get_klicstudio_system_config w base)) <= 1)%nat /\
                forall rq, In rq (out_calls (get_klicstudio_system_config w base)) ->
                  exists endpoint,
                    req_url rq = base ++ endpoint /\ startswith endpoint "/api/" = true).
    { rewrite get_system_config_calls. destruct (url_path w _); simpl.
      - split; [apply le_n|]. intros rq [<-|[]]. now exists "/api/config".
      - split; [apply Nat.le_0_l | intros rq []]. }
    destruct G as [G1 G2].
    destruct (update_llm_config_calls_cases w base base_url api_key model)
      as [->|(cfg & _ & _ & _ & ->)].
    + split; [now apply Nat.le_trans with 1%nat; [|repeat constructor] | exact G2].
    + rewrite update_system_config_calls. destruct (url_path w (base ++ "/api/config")).
      * split.
        -- rewrite length_app. simpl. rewrite Nat.add_1_r. now apply le_n_S.
        -- intros rq Hin. apply in_app_or in Hin as [Hin|[<-|[]]]; [now apply G2|].
           now exists "/api/config".
      * rewrite app_nil_r.
        split; [now apply Nat.le_trans with 1%nat; [|repeat constructor] | exact G2].
  - rewrite upload_calls. destruct (path_exists w _); simpl.
    + destruct (read_file w server_accessible_file_path),
        (url_path w (base ++ "/api/file")); simpl;
        try (split; [apply Nat.le_0_l | intros rq []]).
      split; [apply le_n|]. intros rq [<-|[]]. now exists "/api/file".
    + split; [apply Nat.le_0_l | intros rq []].
  - destruct (start_task_calls_budget w base a) as [->|[payload ->]]; simpl.
    + split; [apply Nat.le_0_l | intros rq []].
    + split; [apply le_n|]. intros rq [<-|[]].
      now exists "/api/capability/subtitleTask".
  - rewrite details_calls. destruct (url_path w _); simpl.
    + split; [apply le_n|]. intros rq [<-|[]].
      now exists (details_endpoint task_id).
    + split; [apply Nat.le_0_l | intros rq []].
  - rewrite fetch_calls. destruct (url_path w _); simpl.
    + split; [apply le_n|]. now intros rq [<-|[]].
    + split; [apply Nat.le_0_l | intros rq []].
Qed.

Lemma requests_of_a_call_witness :
  exists rq,
    out_calls (invoke (canned VNone) "http://127.0.0.1:8888"
                 (GetSubtitleTaskDetails "T1")) = [rq] /\
    exists endpoint,
      req_url rq = "http://127.0.0.1:8888" ++ endpoint /\
      startswith endpoint "/api/" = true.
Proof.
  eexists. split; [reflexivity|].
  apply (proj2 (requests_of_a_call (canned VNone) "http://127.0.0.1:8888"
                  (GetSubtitleTaskDetails "T1"))).
  now left.
Defined.

(* ================================================================== *)
(** ** Failures of the upstream *)









(* ================================================================== *)
(** ** Configuration tools *)

Lemma get_system_config_reply (w : world) (base : string) :
  out_reply (get_klicstudio_system_config w base) =
  match upstream_json w base GET "/api/config" NoBody with
  | inr r => r
  | inl e => error_reply ("获取系统配置失败: " ++ str_exn w e) VNone
  end.
Proof.
  unfold upstream_json, get_klicstudio_system_config, try_except, bind, lift, ret.
  destruct (_klicstudio_request w base GET "/api/config" NoBody []) as [[e|resp] t];
    simpl; [reflexivity|].
  now destruct (resp_json resp).
Qed.

Lemma update_system_config_reply (w : world) (base : string) (config_data : value) :
  out_reply (update_klicstudio_system_config w base config_data) =
  match upstream_json w base POST "/api/config" (JsonBody config_data) with
  | inr r =>
      if is_dict r then r
      else error_reply ("更新系统配置失败: " ++ str_exn w AttributeError) VNone
  | inl e => error_reply ("更新系统配置失败: " ++ str_exn w e) VNone
  end.
Proof.
  unfold upstream_json, update_klicstudio_system_config, try_except, bind, lift, ret.
  destruct (_klicstudio_request w base POST "/api/config" (JsonBody config_data) [])
    as [[e|resp] t]; simpl; [reflexivity|].
  destruct (resp_json resp) as [e|r]; simpl; [reflexivity|].
  destruct r; simpl; try reflexivity.
  now destruct (py_eq_int (dict_get_or_none "error" d) 0).
Qed.

(** X5.  Get System Config hands back whatever JSON document the upstream
    sent, object or not, success or not.  Update System Config hands back
    the upstream's document when it is a JSON object, and answers with
    [error: 1] when the upstream sent any other JSON document. *)
Theorem system_config_replies (w : world) (base : string) (config_data r : value) :
  (upstream_json w base GET "/api/config" NoBody = inr r ->
   out_reply (get_klicstudio_system_config w base) = r) /\
  (upstream_json w base POST "/api/config" (JsonBody config_data) = inr r ->
   out_reply (update_klicstudio_system_config w base config_data) =
   if is_dict r then r
   else error_reply ("更新系统配置失败: " ++ str_exn w AttributeError) VNone).
Proof.
  split; intros H.
  - now rewrite get_system_config_reply, H.
  - now rewrite update_system_config_reply, H.
Qed.

Lemma system_config_replies_witness :
  let r := VList [VStr "saved"] in
  out_reply (get_klicstudio_system_config (canned r) "http://127.0.0.1:8888") = r /\
  field "error"
    (out_reply (update_klicstudio_system_config (canned r) "http://127.0.0.1:8888"
                  (VDict [])))
  = Some (VInt 1).
Proof.
  intros r.
  destruct (system_config_replies (canned r) "http://127.0.0.1:8888" (VDict []) r)
    as [Hg Hu].
  split.
  - exact (Hg eq_refl).
  - rewrite (Hu eq_refl). reflexivity.
Defined.

Lemma set_nested_dict (cfg inner : dict) (k1 k2 : string) (v : value) :
  dict_get k1 cfg = Some (VDict inner) ->
  set_nested (VDict cfg) k1 k2 v
  = ok (VDict (dict_set k1 (VDict (dict_set k2 v inner)) cfg)).
Proof. intros H. unfold set_nested. simpl. now rewrite H. Qed.

Lemma patched_llm_config_dict (fields cfg llm : dict) (base_url api_key model : string) :
  dict_get "data" fields = Some (VDict cfg) ->
  dict_get "llm" cfg = Some (VDict llm) ->
  exists cfg' llm',
    patched_llm_config (VDict fields) base_url api_key model = inr (VDict cfg') /\
    dict_get "llm" cfg' = Some (VDict llm') /\
    dict_get "baseUrl" llm' = Some (VStr base_url) /\
    dict_get "apiKey" llm' = Some (VStr api_key) /\
    dict_get "model" llm' = Some (VStr model) /\
    (forall k, String.eqb "llm" k = false -> dict_get k cfg' = dict_get k cfg) /\
    (forall k, String.eqb "baseUrl" k = false -> String.eqb "apiKey" k = false ->
               String.eqb "model" k = false -> dict_get k llm' = dict_get k llm).
Proof.
  intros Hd Hl.
  set (l1 := dict_set "baseUrl" (VStr base_url) llm).
  set (l2 := dict_set "apiKey" (VStr api_key) l1).
  set (l3 := dict_set "model" (VStr model) l2).
  set (c1 := dict_set "llm" (VDict l1) cfg).
  set (c2 := dict_set "llm" (VDict l2) c1).
  set (c3 := dict_set "llm" (VDict l3) c2).
  assert (E : patched_llm_config (VDict fields) base_url api_key model = inr (VDict c3)).
  { unfold patched_llm_config, py_getitem, rbind, ok. rewrite Hd.
    rewrite (set_nested_dict cfg llm) by exact Hl. unfold ok. fold l1 c1.
    rewrite (set_nested_dict c1 l1) by apply dict_get_set_same. unfold ok. fold l2 c2.
    rewrite (set_nested_dict c2 l2) by apply dict_get_set_same. reflexivity. }
  exists c3, l3. split; [exact E|]. unfold c3, c2, c1, l3, l2, l1.
  split; [apply dict_get_set_same|].
  split; [now rewrite !dict_get_set|]. split; [now rewrite !dict_get_set|].
  split; [now rewrite !dict_get_set|]. split.
  - intros k Hk. now rewrite !dict_get_set, Hk.
  - intros k H1 H2 H3. now rewrite !dict_get_set, H1, H2, H3.
Qed.

(** X6.  When the upstream answers the configuration request with
    [error: 0] and a [data] object holding an [llm] object, Update LLM
    Config sends that request and then one POST whose body is the fetched
    configuration with [llm.baseUrl], [llm.apiKey] and [llm.model] replaced
    by the three arguments: every other entry of [llm] and every other
    entry of the configuration is re-submitted as it was fetched, and the
    reply is the reply of Update System Config for that body. *)
Theorem llm_config_resubmitted
    (w : world) (base base_url api_key model : string) (fields cfg llm : dict) :
  upstream_json w base GET "/api/config" NoBody = inr (VDict fields) ->
  succeeded (VDict fields) = true ->
  dict_get "data" fields = Some (VDict cfg) ->
  dict_get "llm" cfg = Some (VDict llm) ->
  let o := update_klicstudio_llm_config w base base_url api_key model in
  exists cfg' llm',
    out_calls o =
      (out_calls (get_klicstudio_system_config w base)
       ++ out_calls (update_klicstudio_system_config w base (VDict cfg')))%list /\
    out_reply o = out_reply (update_klicstudio_system_config w base (VDict cfg')) /\
    dict_get "llm" cfg' = Some (VDict llm') /\
    dict_get "baseUrl" llm' = Some (VStr base_url) /\
    dict_get "apiKey" llm' = Some (VStr api_key) /\
    dict_get "model" llm' = Some (VStr model) /\
    (forall k, String.eqb "llm" k = false -> dict_get k cfg' = dict_get k cfg) /\
    (forall k, String.eqb "baseUrl" k = false -> String.eqb "apiKey" k = false ->
               String.eqb "model" k = false -> dict_get k llm' = dict_get k llm).
Proof.
  intros Hr Hs Hd Hl o.
  destruct (patched_llm_config_dict fields cfg llm base_url api_key model Hd Hl)
    as (cfg' & llm' & Hp & Hrest).
  exists cfg', llm'. subst o.
  rewrite (update_llm_config_run w base base_url api_key model). cbv zeta.
  rewrite get_system_config_reply, Hr. simpl.
  unfold succeeded in Hs. simpl in Hs. unfold dict_get_or_none.
  destruct (dict_get "error" fields) as [e|]; [|discriminate].
  rewrite Hs. simpl. rewrite Hp. simpl.
  split; [reflexivity|]. split; [reflexivity|]. exact Hrest.
Qed.

Lemma llm_config_resubmitted_witness :
  let llm := [("baseUrl", VStr "https://old.example/v1"); ("apiKey", VStr "old");
              ("model", VStr "m0"); ("json", VBool true)] in
  let cfg := [("app", VDict [("proxy", VStr "")]); ("llm", VDict llm)] in
  let fields := [("error", VInt 0); ("msg", VStr "ok"); ("data", VDict cfg)] in
  let o := update_klicstudio_llm_config (canned (VDict fields)) "http://127.0.0.1:8888"
             "https://new.example/v1" "k" "m1" in
  exists cfg' llm',
    dict_get "llm" cfg' = Some (VDict llm') /\
    dict_get "model" llm' = Some (VStr "m1") /\
    dict_get "json" llm' = Some (VBool true) /\
    dict_get "app" cfg' = Some (VDict [("proxy", VStr "")]).
Proof.
  intros llm cfg fields o.
  destruct (llm_config_resubmitted (canned (VDict fields)) "http://127.0.0.1:8888"
              "https://new.example/v1" "k" "m1" fields cfg llm
              eq_refl eq_refl eq_refl eq_refl)
    as (cfg' & llm' & _ & _ & H1 & _ & _ & H2 & H3 & H4).
  exists cfg', llm'. split; [exact H1|]. split; [exact H2|]. split.
  - rewrite H4 by reflexivity. reflexivity.
  - rewrite H3 by reflexivity. reflexivity.
Defined.

(** X7.  Update LLM Config is all or nothing towards the upstream: a POST
    leaves the connector only when the configuration request was answered
    with [error: 0] and the three assignments went through, and then its
    body is the patched configuration; in every other case (no answer, an
    upstream error, no [data], no [llm] object) nothing but the GET was
    sent. *)
Theorem llm_config_post_only_after_fetch
    (w : world) (base base_url api_key model : string) (rq : request) :
  In rq (out_calls (update_klicstudio_llm_config w base base_url api_key model)) ->
  req_method rq = POST ->
  exists current config_data,
    upstream_json w base GET "/api/config" NoBody = inr current /\
    succeeded current = true /\
    patched_llm_config current base_url api_key model = inr config_data /\
    req_body_of rq = JsonBody config_data.
Proof.
  intros Hin Hm.
  assert (G : forall rq', In rq' (out_calls (get_klicstudio_system_config w base)) ->
                          req_method rq' = GET).
  { rewrite get_system_config_calls. destruct (url_path w _); simpl.
    - now intros rq' [<-|[]].
    - intros rq' []. }
  destruct (update_llm_config_calls_cases w base base_url api_key model)
    as [E|(cfg & Hs & Hp & _ & E)]; rewrite E in Hin.
  - apply G in Hin. congruence.
  - apply in_app_or in Hin as [Hin|Hin]; [apply G in Hin; congruence|].
    rewrite update_system_config_calls in Hin.
    destruct (url_path w _); simpl in Hin; [|destruct Hin].
    destruct Hin as [<-|[]].
    rewrite get_system_config_reply in Hs, Hp.
    destruct (upstream_json w base GET "/api/config" NoBody) as [e|current] eqn:Eu.
    + discriminate.
    + now exists current, cfg.
Qed.

Lemma llm_config_post_only_after_fetch_witness :
  let fields := [("error", VInt 0);
                 ("data", VDict [("llm", VDict [("model", VStr "m0")])])] in
  let o := update_klicstudio_llm_config (canned (VDict fields)) "http://127.0.0.1:8888"
             "https://new.example/v1" "k" "m1" in
  exists rq config_data,
    In rq (out_calls o) /\ req_method rq = POST /\
    patched_llm_config (VDict fields) "https://new.example/v1" "k" "m1"
      = inr config_data /\
    req_body_of rq = JsonBody config_data.
Proof.
  intros fields o.
  set (rq := upstream_request "http://127.0.0.1:8888" POST "/api/config"
               (JsonBody (VDict [("llm", VDict [("model", VStr "m1");
                                               ("baseUrl", VStr "https://new.example/v1");
                                               ("apiKey", VStr "k")])]))).
  assert (Hin : In rq (out_calls o)) by (right; left; reflexivity).
  destruct (llm_config_post_only_after_fetch (canned (VDict fields))
              "http://127.0.0.1:8888" "https://new.example/v1" "k" "m1" rq Hin eq_refl)
    as (current & config_data & Hc & _ & Hp & Hb).
  injection Hc as <-.
  exists rq, config_data. repeat split; assumption.
Defined.

(* ================================================================== *)
(** ** Upload File: the request and the reply *)

Lemma contains_slash_cons (a : ascii) (t : string) :
  contains "/" (String a t) = (if ascii_dec "/" a then true else false) || contains "/" t.
Proof.
  change (contains "/" (String a t))
    with ((if ascii_dec "/" a then String.prefix "" t else false) || contains "/" t).
  destruct (ascii_dec "/" a); [now destruct t | reflexivity].
Qed.

Lemma basename_no_slash (p : string) : contains "/" (basename p) = false.
Proof.
  induction p as [|a t IH]; [reflexivity|].
  simpl basename. destruct (contains "/" t) eqn:Et; [exact IH|].
  destruct (Ascii.eqb a "/") eqn:Ea; [exact Et|].
  rewrite contains_slash_cons, Et.
  destruct (ascii_dec "/" a) as [<-|]; [discriminate | reflexivity].
Qed.

Lemma basename_is_a_suffix (p : string) :
  exists dir, p = dir ++ basename p /\ (dir = "" \/ endswith dir "/" = true).
Proof.
  induction p as [|a t (dir & Hd & He)].
  - exists "". now split; [|left].
  - simpl basename. destruct (contains "/" t) eqn:Et.
    + exists (String a dir). split; [simpl; now rewrite <- Hd|]. right.
      destruct He as [->|He].
      * simpl in Hd. rewrite Hd, basename_no_slash in Et. discriminate.
      * change (endswith (String a dir) "/")
          with (String.eqb (String a dir) "/" || endswith dir "/").
        rewrite He. apply orb_true_r.
    + destruct (Ascii.eqb a "/") eqn:Ea.
      * apply Ascii.eqb_eq in Ea. subst a. exists "/". now split; [|right].
      * exists "". now split; [|left].
Qed.

(** X8.  For a file that exists and can be read, and a URL httpx accepts,
    Upload File sends exactly one request: a POST to the base URL followed
    by "/api/file", carrying the bytes read.  The file name it carries is
    the part of the path after its last slash, so it holds no slash; the
    MIME type is the one [mimetypes] guesses, and when it guesses none, one
    of "video/mp4", "audio/mpeg" and "application/octet-stream". *)
Theorem upload_sends_the_file (w : world) (base path : string) (content : list byte) :
  path_exists w path = true ->
  read_file w path = inr content ->
  url_path w (base ++ "/api/file") <> None ->
  exists file_name mime_type,
    out_calls (upload_file_to_klicstudio w base path) =
      [{| req_method := POST; req_url := base ++ "/api/file";
          req_body_of := FilesBody file_name content mime_type |}] /\
    contains "/" file_name = false /\
    (exists dir, path = dir ++ file_name /\ (dir = "" \/ endswith dir "/" = true)) /\
    match guess_type w path with
    | Some guessed => mime_type = guessed
    | None => In mime_type ["video/mp4"; "audio/mpeg"; "application/octet-stream"]
    end.
Proof.
  intros He Hr Hu. rewrite upload_calls, He, Hr.
  destruct (url_path w (base ++ "/api/file")); [|congruence].
  eexists _, _. split; [reflexivity|].
  split; [apply basename_no_slash|]. split; [apply basename_is_a_suffix|].
  destruct (guess_type w path); [reflexivity|].
  unfold fallback_mime_type.
  destruct (endswith_any _ [".mp4"; ".mov"; ".avi"; ".mkv"]); [now left|].
  destruct (endswith_any _ _); [right; now left | right; right; now left].
Qed.

Lemma upload_sends_the_file_witness :
  exists file_name mime_type,
    out_calls (upload_file_to_klicstudio (canned VNone) "http://127.0.0.1:8888"
                 "/srv/media/clip.mkv") =
    [{| req_method := POST; req_url := "http://127.0.0.1:8888/api/file";
        req_body_of := FilesBody file_name [] mime_type |}] /\
    contains "/" file_name = false.
Proof.
  destruct (upload_sends_the_file (canned VNone) "http://127.0.0.1:8888"
              "/srv/media/clip.mkv" [] eq_refl eq_refl)
    as (file_name & mime_type & Hc & Hn & _); [discriminate|].
  exists file_name, mime_type. split; [exact Hc | exact Hn].
Defined.

(** The reply of Upload File once its request was answered. *)
Lemma upload_reply_of_answer (w : world) (base path : string) (rq : request)
    (resp : response) :
  In rq (out_calls (upload_file_to_klicstudio w base path)) ->
  http w rq = inr resp ->
  out_reply (upload_file_to_klicstudio w base path) =
  match rbind (resp_json resp) normalize_file_path with
  | inr v => v
  | inl e => error_reply ("上传文件失败: " ++ str_exn w e) VNone
  end.
Proof.
  intros Hin Hh. rewrite upload_calls in Hin.
  unfold upload_file_to_klicstudio, try_except, _klicstudio_request, client_request,
    bind, lift, send, ret.
  destruct (path_exists w path); simpl in *; [|destruct Hin].
  destruct (read_file w path) as [e|content]; simpl in *; [destruct Hin|].
  destruct (url_path w (base ++ "/api/file")); simpl in *; [|destruct Hin].
  destruct Hin as [<-|[]]. unfold upstream_request in Hh. rewrite Hh.
  destruct (resp_json resp) as [e|r]; simpl; [reflexivity|].
  now destruct (normalize_file_path r).
Qed.

(** X9.  Upload File hands the upstream's answer back untouched whenever
    the answer is a JSON object whose [data] is absent, [null], empty or
    otherwise false, or is an object whose [file_path] is absent or is not
    a string. *)
Theorem upload_answer_returned_untouched
    (w : world) (base path : string) (rq : request) (resp : response) (fields : dict) :
  In rq (out_calls (upload_file_to_klicstudio w base path)) ->
  http w rq = inr resp ->
  resp_json resp = inr (VDict fields) ->
  (py_truthy (dict_get_or_none "data" fields) = false \/
   exists data, dict_get "data" fields = Some (VDict data) /\
                forall s, dict_get "file_path" data <> Some (VStr s)) ->
  out_reply (upload_file_to_klicstudio w base path) = VDict fields.
Proof.
  intros Hin Hh Hj Hc. rewrite (upload_reply_of_answer w base path rq resp Hin Hh), Hj.
  unfold normalize_file_path, py_get, rbind, ok.
  destruct Hc as [Hf|(data & Hd & Hs)].
  - now rewrite Hf.
  - unfold dict_get_or_none at 1 2. rewrite Hd.
    destruct (py_truthy (VDict data)); [|reflexivity].
    unfold dict_get_or_none.
    destruct (dict_get "file_path" data) as [[| | | |s| |]|]; try reflexivity.
    now destruct (Hs s).
Qed.

Lemma upload_answer_returned_untouched_witness :
  let fields := [("error", VInt 1); ("msg", VStr "unsupported file"); ("data", VNone)] in
  out_reply (upload_file_to_klicstudio (canned (VDict fields)) "http://127.0.0.1:8888"
               "/srv/media/clip.mkv") = VDict fields.
Proof.
  intros fields.
  apply (upload_answer_returned_untouched (canned (VDict fields)) "http://127.0.0.1:8888"
           "/srv/media/clip.mkv"
           (upstream_request "http://127.0.0.1:8888" POST "/api/file"
              (FilesBody "clip.mkv" [] "video/mp4"))
           {| resp_json := ok (VDict fields); resp_content := [];
              resp_content_type := None |} fields).
  - left. reflexivity.
  - reflexivity.
  - reflexivity.
  - left. reflexivity.
Defined.

(** X10.  Upload File reports a failure although the upstream received the
    file and answered, with [error: 1] and [data: None], when the answer is
    not a JSON object, when its [data] is a true value other than an
    object (a number, a non-empty string or list), or when [file_path] is
    the empty string. *)
Theorem upload_answer_turned_into_error
    (w : world) (base path : string) (rq : request) (resp : response) (r : value) :
  In rq (out_calls (upload_file_to_klicstudio w base path)) ->
  http w rq = inr resp ->
  resp_json resp = inr r ->
  (is_dict r = false \/
   exists fields,
     r = VDict fields /\
     ((py_truthy (dict_get_or_none "data" fields) = true /\
       is_dict (dict_get_or_none "data" fields) = false) \/
      exists data, dict_get "data" fields = Some (VDict data) /\
                   dict_get "file_path" data = Some (VStr ""))) ->
  exists e,
    out_reply (upload_file_to_klicstudio w base path)
    = error_reply ("上传文件失败: " ++ str_exn w e) VNone.
Proof.
  intros Hin Hh Hj Hc. rewrite (upload_reply_of_answer w base path rq resp Hin Hh), Hj.
  simpl. unfold normalize_file_path.
  destruct Hc as [Hd|(fields & -> & [[Ht Hd]|(data & Hd & Hf)])].
  - destruct r; try discriminate; eexists; reflexivity.
  - simpl. rewrite Ht.
    destruct (dict_get_or_none "data" fields); try discriminate; eexists; reflexivity.
  - simpl. unfold dict_get_or_none at 1 2. rewrite Hd.
    destruct data as [|entry data]; [discriminate|]. simpl py_truthy. cbv iota.
    unfold py_get, rbind, ok, dict_get_or_none. rewrite Hf. simpl.
    eexists; reflexivity.
Qed.

Lemma upload_answer_turned_into_error_witness :
  let r := VDict [("error", VInt 0); ("msg", VStr "ok");
                  ("data", VDict [("file_path", VStr "")])] in
  field "error"
    (out_reply (upload_file_to_klicstudio (canned r) "http://127.0.0.1:8888"
                  "/srv/media/clip.mkv")) = Some (VInt 1).
Proof.
  intros r.
  destruct (upload_answer_turned_into_error (canned r) "http://127.0.0.1:8888"
              "/srv/media/clip.mkv"
              (upstream_request "http://127.0.0.1:8888" POST "/api/file"
                 (FilesBody "clip.mkv" [] "video/mp4"))
              {| resp_json := ok r; resp_content := []; resp_content_type := None |} r)
    as [e ->].
  - left. reflexivity.
  - reflexivity.
  - reflexivity.
  - right. eexists. split; [reflexivity|]. right. eexists. split; reflexivity.
  - reflexivity.
Defined.

(** X11.  When the path exists but cannot be read (a directory, a file
    without read permission), Upload File answers with [error: 1], a
    message made of "上传文件失败: " and the text of the exception, and
    [data: None], and sends nothing. *)
Theorem upload_unreadable_file (w : world) (base path : string) (e : exn) :
  path_exists w path = true ->
  read_file w path = inl e ->
  let o := upload_file_to_klicstudio w base path in
  out_reply o = error_reply ("上传文件失败: " ++ str_exn w e) VNone /\
  out_calls o = [].
Proof.
  intros He Hr o. subst o. split.
  - unfold upload_file_to_klicstudio, try_except, bind, lift. now rewrite He, Hr.
  - now rewrite upload_calls, He, Hr.
Qed.

Lemma upload_unreadable_file_witness :
  let o := upload_file_to_klicstudio unreadable "http://127.0.0.1:8888" "/srv/media" in
  field "error" (out_reply o) = Some (VInt 1) /\ out_calls o = [].
Proof.
  destruct (upload_unreadable_file unreadable "http://127.0.0.1:8888" "/srv/media"
              (OSError 21) eq_refl eq_refl) as [H1 H2].
  split; [now rewrite H1 | exact H2].
Defined.

(* ================================================================== *)
(** ** Start Subtitle Task: the optional fields *)

Lemma add_tts_fields_closed (a : subtitle_args) (payload : dict) :
  dict_get "tts" payload = Some (VInt (if tts a then 1 else 2)) ->
  add_tts_fields a payload =
  inr (if tts a then
         let with_code :=
           set_if_not_none "tts_voice_code" (option_map VInt (tts_voice_code a)) payload in
         if opt_str_truthy (tts_voice_clone_src_file_url a) then
           dict_set "tts_voice_clone_src_file_url"
             (opt_str_value (tts_voice_clone_src_file_url a)) with_code
         else with_code
       else payload).
Proof.
  intros H. unfold add_tts_fields, py_getitem, rbind, ok. rewrite H.
  destruct (tts a).
  - change (py_eq_int (VInt 1) 1) with true. cbv iota zeta.
    now destruct (opt_str_truthy (tts_voice_clone_src_file_url a)).
  - reflexivity.
Qed.

Lemma translated_payload_tts (a : subtitle_args) :
  dict_get "tts" (add_translation_fields a (base_payload a))
  = Some (VInt (if tts a then 1 else 2)).
Proof. now rewrite add_translation_fields_get. Qed.

(** The payload in closed form. *)
Lemma subtitle_payload_closed (a : subtitle_args) :
  subtitle_payload a =
  inr (add_optional_fields a
         (let payload := add_translation_fields a (base_payload a) in
          if tts a then
            let with_code :=
              set_if_not_none "tts_voice_code" (option_map VInt (tts_voice_code a))
                payload in
            if opt_str_truthy (tts_voice_clone_src_file_url a) then
              dict_set "tts_voice_clone_src_file_url"
                (opt_str_value (tts_voice_clone_src_file_url a)) with_code
            else with_code
          else payload)).
Proof.
  unfold subtitle_payload.
  now rewrite (add_tts_fields_closed a _ (translated_payload_tts a)).
Qed.

(** X12.  The two TTS parameters reach the payload only when [tts] is
    [True]: then [tts_voice_code] is sent whenever it is not [None], and
    [tts_voice_clone_src_file_url] whenever it is a non-empty string; with
    [tts] [False] the payload has neither field, whatever was passed. *)
Theorem tts_fields_need_tts_enabled (w : world) (base : string) (a : subtitle_args) :
  let o := start_klicstudio_subtitle_task w base a in
  exists payload,
    subtitle_payload a = inr payload /\
    (forall rq, In rq (out_calls o) -> json_payload rq = Some payload) /\
    dict_get "tts_voice_code" payload =
      (if tts a then option_map VInt (tts_voice_code a) else None) /\
    dict_get "tts_voice_clone_src_file_url" payload =
      (if tts a && opt_str_truthy (tts_voice_clone_src_file_url a)
       then Some (opt_str_value (tts_voice_clone_src_file_url a)) else None).
Proof.
  intros o. eexists. split; [apply subtitle_payload_closed|]. split.
  - intros rq. apply start_task_payload_sent, subtitle_payload_closed.
  - rewrite !add_optional_fields_get by reflexivity. cbv zeta.
    destruct (tts a); simpl andb.
    + destruct (opt_str_truthy (tts_voice_clone_src_file_url a));
        rewrite ?dict_get_set, !dict_get_set_if_not_none;
        rewrite !add_translation_fields_get by reflexivity;
        destruct (tts_voice_code a); split; reflexivity.
    + rewrite !add_translation_fields_get by reflexivity. split; reflexivity.
Qed.

Lemma tts_fields_need_tts_enabled_witness :
  let a := {| media_url_on_klicstudio := "local:./up.mp4"; language := "en";
              origin_lang := None; target_lang := None; bilingual := false;
              translation_subtitle_pos := 1; tts := true; tts_voice_code := Some 2;
              tts_voice_clone_src_file_url := Some "";
              modal_filter := false; embed_subtitle_video_type := "none";
              vertical_major_title := None; vertical_minor_title := None;
              replace_words := None |} in
  exists rq payload,
    out_calls (start_klicstudio_subtitle_task offline DEFAULT_KLICSTUDIO_URL a) = [rq] /\
    json_payload rq = Some payload /\
    dict_get "tts_voice_code" payload = Some (VInt 2) /\
    dict_get "tts_voice_clone_src_file_url" payload = None.
Proof.
  intros a.
  destruct (tts_fields_need_tts_enabled offline DEFAULT_KLICSTUDIO_URL a)
    as (payload & _ & Hsent & Hc & Hu).
  eexists _, payload. split; [reflexivity|]. split; [|split; [exact Hc | exact Hu]].
  apply Hsent. now left.
Defined.

Lemma subtitle_payload_optional (a : subtitle_args) :
  exists p,
    subtitle_payload a = inr (add_optional_fields a p) /\
    forall k, String.eqb "tts_voice_code" k = false ->
              String.eqb "tts_voice_clone_src_file_url" k = false ->
              dict_get k p = dict_get k (add_translation_fields a (base_payload a)).
Proof.
  destruct (add_tts_fields_get a _ (translated_payload_tts a)) as (p & Hp & Hk).
  exists p. split; [|exact Hk]. unfold subtitle_payload. now rewrite Hp.
Qed.

(** X13.  A vertical title is sent whenever it is not [None], the empty
    string included; the word replacements are sent, under the name
    [replace], only when the list is not empty. *)
Theorem titles_and_replacements (w : world) (base : string) (a : subtitle_args) :
  let o := start_klicstudio_subtitle_task w base a in
  exists payload,
    subtitle_payload a = inr payload /\
    (forall rq, In rq (out_calls o) -> json_payload rq = Some payload) /\
    dict_get "vertical_major_title" payload = option_map VStr (vertical_major_title a) /\
    dict_get "vertical_minor_title" payload = option_map VStr (vertical_minor_title a) /\
    dict_get "replace" payload =
      match replace_words a with
      | Some (x :: l) => Some (VList (map VStr (x :: l)))
      | _ => None
      end /\
    dict_get "replace_words" payload = None.
Proof.
  intros o. destruct (subtitle_payload_optional a) as (p & Hp & Hk).
  exists (add_optional_fields a p). split; [exact Hp|]. split.
  - intros rq. now apply start_task_payload_sent.
  - assert (Hb : forall k,
               String.eqb "tts_voice_code" k = false ->
               String.eqb "tts_voice_clone_src_file_url" k = false ->
               String.eqb "origin_lang" k = false ->
               String.eqb "target_lang" k = false ->
               dict_get k p = dict_get k (base_payload a)).
    { intros k H1 H2 H3 H4. rewrite Hk by assumption.
      now apply add_translation_fields_get. }
    unfold add_optional_fields.
    destruct (replace_words a) as [[|x l]|];
      rewrite ?dict_get_set, !dict_get_set_if_not_none, !Hb by reflexivity;
      destruct (vertical_major_title a), (vertical_minor_title a);
      repeat split.
Qed.

Lemma titles_and_replacements_witness :
  let a := {| media_url_on_klicstudio := "local:./up.mp4"; language := "en";
              origin_lang := None; target_lang := None; bilingual := false;
              translation_subtitle_pos := 1; tts := false; tts_voice_code := None;
              tts_voice_clone_src_file_url := None;
              modal_filter := false; embed_subtitle_video_type := "vertical";
              vertical_major_title := Some ""; vertical_minor_title := None;
              replace_words := Some [] |} in
  exists rq payload,
    out_calls (start_klicstudio_subtitle_task offline DEFAULT_KLICSTUDIO_URL a) = [rq] /\
    json_payload rq = Some payload /\
    dict_get "vertical_major_title" payload = Some (VStr "") /\
    dict_get "replace" payload = None.
Proof.
  intros a.
  destruct (titles_and_replacements offline DEFAULT_KLICSTUDIO_URL a)
    as (payload & _ & Hsent & Hmaj & _ & Hrep & _).
  eexists _, payload. split; [reflexivity|]. split; [|split; [exact Hmaj | exact Hrep]].
  apply Hsent. now left.
Defined.

Lemma dict_get_in_keys (k : string) (v : value) (d : dict) :
  dict_get k d = Some v -> In k (map fst d).
Proof.
  induction d as [|[k0 v0] d IH]; simpl; [discriminate|].
  destruct (String.eqb k0 k) eqn:E.
  - apply String.eqb_eq in E. now left.
  - intros H. right. now apply IH.
Qed.

Lemma dict_set_keys (K : list string) (k : string) (v : value) (d : dict) :
  In k K -> incl (map fst d) K -> incl (map fst (dict_set k v d)) K.
Proof.
  intros Hk. induction d as [|[k0 v0] d IH]; simpl; intros Hd.
  - intros x [<-|[]]. exact Hk.
  - destruct (String.eqb k0 k); simpl.
    + exact Hd.
    + intros x [<-|Hx]; [apply Hd; now left|].
      apply IH; [|exact Hx]. intros y Hy. apply Hd. now right.
Qed.

Lemma set_if_not_none_keys (K : list string) (k : string) (o : option value) (d : dict) :
  In k K -> incl (map fst d) K -> incl (map fst (set_if_not_none k o d)) K.
Proof. destruct o; simpl; [apply dict_set_keys | trivial]. Qed.

Ltac known_key := unfold payload_keys; simpl; tauto.

Lemma subtitle_payload_keys (a : subtitle_args) (payload : dict) :
  subtitle_payload a = inr payload -> incl (map fst payload) payload_keys.
Proof.
  rewrite subtitle_payload_closed. intros [= <-].
  assert (B : incl (map fst (add_translation_fields a (base_payload a))) payload_keys).
  { unfold add_translation_fields.
    assert (B0 : incl (map fst (base_payload a)) payload_keys)
      by (intros k Hk; simpl in Hk; known_key).
    destruct (opt_str_truthy (origin_lang a)), (opt_str_truthy (target_lang a));
      repeat (apply dict_set_keys; [known_key|]); exact B0. }
  unfold add_optional_fields.
  assert (T : incl (map fst
              (let payload := add_translation_fields a (base_payload a) in
               if tts a then
                 let with_code :=
                   set_if_not_none "tts_voice_code"
                     (option_map VInt (tts_voice_code a)) payload in
                 if opt_str_truthy (tts_voice_clone_src_file_url a) then
                   dict_set "tts_voice_clone_src_file_url"
                     (opt_str_value (tts_voice_clone_src_file_url a)) with_code
                 else with_code
               else payload)) payload_keys).
  { cbv zeta. destruct (tts a); [|exact B].
    destruct (opt_str_truthy (tts_voice_clone_src_file_url a));
      [apply dict_set_keys; [known_key|]|];
      (apply set_if_not_none_keys; [known_key | exact B]). }
  destruct (replace_words a) as [[|x l]|];
    [| apply dict_set_keys; [known_key|] |];
    (apply set_if_not_none_keys; [known_key|]);
    (apply set_if_not_none_keys; [known_key|]); exact T.
Qed.

(** X14.  Whatever the optional parameters, the payload carries the media
    URL under [url], and [language], [translation_subtitle_pos] and
    [embed_subtitle_video_type] exactly as passed: no later step overwrites
    them.  And the payload never holds a field outside the fourteen names
    of [payload_keys]. *)
Theorem payload_base_fields_and_names (w : world) (base : string) (a : subtitle_args) :
  let o := start_klicstudio_subtitle_task w base a in
  exists payload,
    subtitle_payload a = inr payload /\
    (forall rq, In rq (out_calls o) -> json_payload rq = Some payload) /\
    dict_get "url" payload = Some (VStr (media_url_on_klicstudio a)) /\
    dict_get "language" payload = Some (VStr (language a)) /\
    dict_get "translation_subtitle_pos" payload
      = Some (VInt (translation_subtitle_pos a)) /\
    dict_get "embed_subtitle_video_type" payload
      = Some (VStr (embed_subtitle_video_type a)) /\
    forall k v, dict_get k payload = Some v -> In k payload_keys.
Proof.
  intros o. destruct (subtitle_payload_get a) as (payload & Hp & Hk).
  exists payload. split; [exact Hp|]. split.
  - intros rq. now apply start_task_payload_sent.
  - rewrite !Hk by reflexivity.
    rewrite !add_translation_fields_get by reflexivity.
    repeat split.
    intros k v Hv. apply (subtitle_payload_keys a payload Hp).
    now apply dict_get_in_keys with v.
Qed.

Lemma payload_base_fields_and_names_witness :
  let a := default_args "https://www.youtube.com/watch?v=abc" in
  exists rq payload,
    out_calls (start_klicstudio_subtitle_task offline DEFAULT_KLICSTUDIO_URL a) = [rq] /\
    json_payload rq = Some payload /\
    dict_get "url" payload = Some (VStr "https://www.youtube.com/watch?v=abc") /\
    In "language" payload_keys.
Proof.
  intros a.
  destruct (payload_base_fields_and_names offline DEFAULT_KLICSTUDIO_URL a)
    as (payload & _ & Hsent & Hu & Hl & _ & _ & Hk).
  eexists _, payload. split; [reflexivity|]. split; [apply Hsent; now left|].
  split; [exact Hu|]. exact (Hk "language" _ Hl).
Defined.

(* ================================================================== *)
(** ** Get Subtitle Task Details: failures, pass-through, untouched fields *)

Lemma details_reply_full (w : world) (base task_id : string) :
  out_reply (get_klicstudio_subtitle_task_details w base task_id) =
  match rbind (upstream_json w base GET (details_endpoint task_id) NoBody)
          (post_process_details base task_id) with
  | inr v => v
  | inl e =>
      error_reply ("获取 KlicStudio 字幕任务详情失败 (ID: " ++ task_id ++ "): " ++ str_exn w e)
        (VDict [("task_id", VStr task_id)])
  end.
Proof.
  unfold upstream_json, get_klicstudio_subtitle_task_details, try_except, bind, lift.
  destruct (_klicstudio_request w base GET (details_endpoint task_id) NoBody [])
    as [[e|resp] t]; simpl; [reflexivity|].
  destruct (resp_json resp) as [e|r]; simpl; [reflexivity|].
  now destruct (post_process_details base task_id r).
Qed.

(** X15.  Get Subtitle Task Details answers with [error: 1] and
    [data: {"task_id": task_id}] when the upstream gives no JSON answer,
    when the answer is not a JSON object, and when the answer reports
    [error: 0] with a [data] that is present but is not an object, [null]
    included. *)
Theorem details_failure_names_the_task (w : world) (base task_id : string) :
  let o := get_klicstudio_subtitle_task_details w base task_id in
  let failure e :=
    error_reply ("获取 KlicStudio 字幕任务详情失败 (ID: " ++ task_id ++ "): " ++ str_exn w e)
      (VDict [("task_id", VStr task_id)]) in
  (forall e, upstream_json w base GET (details_endpoint task_id) NoBody = inl e ->
             out_reply o = failure e) /\
  (forall r, upstream_json w base GET (details_endpoint task_id) NoBody = inr r ->
             is_dict r = false -> out_reply o = failure AttributeError) /\
  (forall fields x,
     upstream_json w base GET (details_endpoint task_id) NoBody = inr (VDict fields) ->
     succeeded (VDict fields) = true ->
     dict_get "data" fields = Some x -> is_dict x = false ->
     out_reply o = failure AttributeError).
Proof.
  intros o failure. subst o. rewrite details_reply_full. repeat split.
  - now intros e ->.
  - intros r -> Hr. simpl. destruct r; try discriminate; reflexivity.
  - intros fields x -> Hs Hd Hx. simpl. unfold post_process_details. simpl.
    unfold succeeded in Hs. simpl in Hs. unfold dict_get_or_none.
    destruct (dict_get "error" fields) as [e|]; [|discriminate].
    rewrite Hs. simpl. unfold dict_mem. rewrite Hd. simpl.
    destruct x; try discriminate; reflexivity.
Qed.

Lemma details_failure_names_the_task_witness :
  let r := VDict [("error", VInt 0); ("msg", VStr "ok"); ("data", VNone)] in
  let o := get_klicstudio_subtitle_task_details (canned r) "http://127.0.0.1:8888" "T1" in
  field "error" (out_reply o) = Some (VInt 1) /\
  data_field "task_id" (out_reply o) = Some (VStr "T1").
Proof.
  intros r o.
  destruct (details_failure_names_the_task (canned r) "http://127.0.0.1:8888" "T1")
    as (_ & _ & H).
  unfold o. rewrite (H _ VNone eq_refl eq_refl eq_refl eq_refl).
  split; reflexivity.
Defined.

(** X16.  An upstream answer that reports an error (its [error] is not 0,
    or is missing) or that has no [data] field is handed back exactly as
    received: nothing is rewritten and nothing is appended. *)
Theorem details_error_answer_untouched
    (w : world) (base task_id : string) (fields : dict) :
  upstream_json w base GET (details_endpoint task_id) NoBody = inr (VDict fields) ->
  succeeded (VDict fields) = false \/ dict_get "data" fields = None ->
  out_reply (get_klicstudio_subtitle_task_details w base task_id) = VDict fields.
Proof.
  intros Hr Hc. rewrite details_reply_full, Hr. simpl.
  unfold post_process_details. simpl. unfold dict_get_or_none, succeeded in *. simpl in Hc.
  destruct (dict_get "error" fields) as [e|].
  - destruct (py_eq_int e 0); simpl; [|reflexivity].
    destruct Hc as [Hc|Hc]; [discriminate|].
    unfold dict_mem. now rewrite Hc.
  - reflexivity.
Qed.

Lemma details_error_answer_untouched_witness :
  let fields := [("error", VInt 1); ("msg", VStr "task not found");
                 ("data", VDict [("process_percent", VInt 100);
                                 ("speech_download_url", VStr "/a.mp3")])] in
  out_reply (get_klicstudio_subtitle_task_details (canned (VDict fields))
               "http://127.0.0.1:8888" "T1") = VDict fields.
Proof.
  intros fields.
  apply (details_error_answer_untouched (canned (VDict fields)) "http://127.0.0.1:8888"
           "T1" fields eq_refl).
  left. reflexivity.
Defined.

Section Untouched.

Variables base task_id : string.

Lemma post_process_data_other_keys (d d' : dict) (k : string) :
  post_process_data base task_id d = inr d' ->
  String.eqb "subtitle_info" k = false ->
  String.eqb "speech_download_url" k = false ->
  String.eqb "potential_embedded_video_urls" k = false ->
  dict_get k d' = dict_get k d.
Proof.
  unfold post_process_data. intros H H1 H2 H3.
  destruct (fix_subtitle_info base d) as [e|d1] eqn:E1; simpl in H; [discriminate|].
  rewrite <- (fix_subtitle_info_get base d d1 k E1 H1).
  rewrite <- (fix_speech_url_get base d1 k H2).
  destruct (py_eq_int (dict_get_or_none "process_percent" d) 100).
  - now apply (add_embedded_video_urls_get base task_id).
  - now injection H as <-.
Qed.

Lemma post_process_details_shape (fields d : dict) (v : value) :
  dict_get "data" fields = Some (VDict d) ->
  post_process_details base task_id (VDict fields) = inr v ->
  succeeded v = true ->
  exists d', post_process_data base task_id d = inr d' /\
             v = VDict (dict_set "data" (VDict d') fields).
Proof.
  intros Hd. unfold post_process_details. simpl.
  destruct (py_eq_int (dict_get_or_none "error" fields) 0) eqn:Ee; simpl.
  - unfold dict_mem. rewrite Hd. simpl.
    destruct (post_process_data base task_id d) as [e|d']; simpl; [discriminate|].
    intros [= <-] _. now exists d'.
  - intros [= <-]. unfold succeeded. simpl. unfold dict_get_or_none in Ee.
    destruct (dict_get "error" fields); [congruence | discriminate].
Qed.

(** What the loop body does to one entry: nothing, or the one rewrite. *)
Lemma fix_subtitle_item_cases (item item' : value) :
  fix_subtitle_item base item = inr item' ->
  (item' = item /\
   forall s, field "download_url" item = Some (VStr s) -> startswith s "http" = true) \/
  exists it s,
    item = VDict it /\ dict_get "download_url" it = Some (VStr s) /\
    startswith s "http" = false /\
    item' = VDict (dict_set "download_url" (VStr (absolute_url base s)) it).
Proof.
  unfold fix_subtitle_item.
  destruct (py_in "download_url" item) as [e|present] eqn:Ei; simpl; [discriminate|].
  destruct present.
  - destruct item as [| | | | | |it]; simpl; try discriminate.
    destruct (dict_get "download_url" it) as [[| | | |s| |]|] eqn:Eg; simpl;
      try discriminate;
      try (intros [= <-]; left; split; [reflexivity | intros s' [=]]).
    destruct (startswith s "http") eqn:Es; simpl.
    + intros [= <-]. left. split; [reflexivity|]. now intros s' [= <-].
    + intros [= <-]. right. now exists it, s.
  - intros [= <-]. left. split; [reflexivity|].
    destruct item as [| | | | | |it]; simpl; try discriminate.
    simpl in Ei. unfold dict_mem in Ei. intros s Hs. rewrite Hs in Ei. discriminate.
Qed.

End Untouched.

(** X17.  When the call reports success, post-processing touches nothing
    but the three fields it is about: every top-level field of the answer
    other than [data], and every field of [data] other than
    [subtitle_info], [speech_download_url] and
    [potential_embedded_video_urls], comes back as the upstream sent it. *)
Theorem details_other_fields_untouched
    (w : world) (base task_id : string) (fields d : dict) :
  let o := get_klicstudio_subtitle_task_details w base task_id in
  upstream_json w base GET (details_endpoint task_id) NoBody = inr (VDict fields) ->
  dict_get "data" fields = Some (VDict d) ->
  succeeded (out_reply o) = true ->
  (forall k, String.eqb "data" k = false ->
             field k (out_reply o) = dict_get k fields) /\
  (forall k, String.eqb "subtitle_info" k = false ->
             String.eqb "speech_download_url" k = false ->
             String.eqb "potential_embedded_video_urls" k = false ->
             data_field k (out_reply o) = dict_get k d).
Proof.
  intros o Hr Hd Hs.
  pose proof (details_succeeded w base task_id _ Hr Hs) as Hp. fold o in Hp.
  destruct (post_process_details_shape base task_id fields d _ Hd Hp Hs) as (d' & Hd' & E).
  rewrite E. split.
  - intros k Hk. simpl. now rewrite dict_get_set, Hk.
  - intros k H1 H2 H3. unfold data_field. simpl. rewrite dict_get_set_same. simpl.
    now apply (post_process_data_other_keys base task_id d d').
Qed.

Lemma details_other_fields_untouched_witness :
  let d := [("task_id", VStr "T1"); ("process_percent", VInt 100);
            ("video_info", VDict [("title", VStr "demo")])] in
  let fields := [("error", VInt 0); ("msg", VStr "成功"); ("data", VDict d)] in
  let o := get_klicstudio_subtitle_task_details (canned (VDict fields))
             "http://127.0.0.1:8888" "T1" in
  field "msg" (out_reply o) = Some (VStr "成功") /\
  data_field "video_info" (out_reply o) = Some (VDict [("title", VStr "demo")]).
Proof.
  intros d fields o.
  destruct (details_other_fields_untouched (canned (VDict fields)) "http://127.0.0.1:8888"
              "T1" fields d eq_refl eq_refl eq_refl) as [Ht Hd].
  split.
  - exact (Ht "msg" eq_refl).
  - exact (Hd "video_info" eq_refl eq_refl eq_refl).
Defined.

(** X18.  When the call reports success, [subtitle_info] comes back with
    as many entries, in the same order; every field of an entry other than
    [download_url] is as the upstream sent it; and an entry whose
    [download_url] is absent, is not a string, or starts with "http" comes
    back unchanged.  A [speech_download_url] that is not a string, is
    empty, or starts with "http" comes back unchanged too. *)
Theorem absolute_urls_and_other_fields_kept
    (w : world) (base task_id : string) (fields d : dict) :
  let o := get_klicstudio_subtitle_task_details w base task_id in
  upstream_json w base GET (details_endpoint task_id) NoBody = inr (VDict fields) ->
  dict_get "data" fields = Some (VDict d) ->
  succeeded (out_reply o) = true ->
  (forall items,
     dict_get "subtitle_info" d = Some (VList items) ->
     exists items',
       data_field "subtitle_info" (out_reply o) = Some (VList items') /\
       length items' = length items /\
       forall i item,
         nth_error items i = Some item ->
         exists item',
           nth_error items' i = Some item' /\
           (forall k, String.eqb "download_url" k = false ->
                      field k item' = field k item) /\
           ((forall s, field "download_url" item = Some (VStr s) ->
                       startswith s "http" = true) ->
            item' = item)) /\
  (forall v,
     dict_get "speech_download_url" d = Some v ->
     (forall s, v = VStr s -> s = "" \/ startswith s "http" = true) ->
     data_field "speech_download_url" (out_reply o) = Some v).
Proof.
  intros o Hr Hd Hs.
  pose proof (details_succeeded w base task_id _ Hr Hs) as Hp. fold o in Hp.
  destruct (post_process_details_data base task_id (VDict fields) _ d Hd Hp Hs)
    as (d' & Hd' & _ & Hk).
  destruct (post_process_data_urls base task_id d d' Hd') as [Hspeech Hsub].
  split.
  - intros items Hi. destruct (Hsub items Hi) as (items' & Hf & Hg).
    exists items'. rewrite Hk. split; [exact Hg|].
    destruct (fix_subtitle_items_nth base items items' Hf) as [Hl Hn].
    split; [exact Hl|]. intros i item Hnth.
    destruct (Hn i item Hnth) as (item' & Hn' & Hfix).
    exists item'. split; [exact Hn'|].
    destruct (fix_subtitle_item_cases base item item' Hfix)
      as [[-> _]|(it & s & -> & Hg' & Hh & ->)].
    + split; [reflexivity | reflexivity].
    + split.
      * intros k Hk'. simpl. now rewrite dict_get_set, Hk'.
      * intros Hall. specialize (Hall s Hg'). congruence.
  - intros v Hv Hcond. rewrite Hk, Hspeech, fix_speech_url_speech, Hv.
    destruct v; try reflexivity.
    destruct (Hcond s eq_refl) as [->|Hh]; [reflexivity|].
    rewrite Hh. now rewrite andb_false_r.
Qed.

Lemma absolute_urls_and_other_fields_kept_witness :
  let entry := VDict [("name", VStr "origin"); ("download_url", VStr "https://cdn/a.srt")] in
  let d := [("subtitle_info", VList [entry]);
            ("speech_download_url", VStr "https://cdn/a.mp3")] in
  let fields := [("error", VInt 0); ("msg", VStr "ok"); ("data", VDict d)] in
  let o := get_klicstudio_subtitle_task_details (canned (VDict fields))
             "http://127.0.0.1:8888" "T1" in
  data_field "subtitle_info" (out_reply o) = Some (VList [entry]) /\
  data_field "speech_download_url" (out_reply o) = Some (VStr "https://cdn/a.mp3").
Proof.
  intros entry d fields o.
  destruct (absolute_urls_and_other_fields_kept (canned (VDict fields))
              "http://127.0.0.1:8888" "T1" fields d eq_refl eq_refl eq_refl)
    as [Hsub Hspeech].
  unfold o. split.
  - destruct (Hsub [entry] eq_refl) as (items' & Hi & Hl & Hn).
    destruct (Hn 0%nat entry eq_refl) as (item' & Hn' & _ & Hsame).
    rewrite Hi. destruct items' as [|x [|y rest]]; try discriminate.
    injection Hn' as ->. rewrite Hsame; [reflexivity|].
    intros s [= <-]. reflexivity.
  - apply Hspeech; [reflexivity|]. intros s [= <-]. now right.
Defined.

(* ================================================================== *)
(** ** Rewriting URLs twice *)

Lemma startswith_app (s t p : string) :
  startswith s p = true -> startswith (s ++ t) p = true.
Proof.
  unfold startswith. revert s. induction p as [|a p IH]; intros s H.
  - now destruct (s ++ t).
  - destruct s as [|b s]; [discriminate|]. simpl in *.
    destruct (ascii_dec a b); [now apply IH | discriminate].
Qed.

Lemma absolute_url_http (base relative_url : string) :
  startswith (rstrip "/" base) "http" = true ->
  startswith (absolute_url base relative_url) "http" = true.
Proof.
  intros H. unfold absolute_url.
  destruct (startswith relative_url "/"); now apply startswith_app.
Qed.

Lemma dict_set_set (k : string) (v v' : value) (d : dict) :
  dict_set k v (dict_set k v' d) = dict_set k v d.
Proof.
  induction d as [|[k0 v0] d IH]; simpl.
  - now rewrite String.eqb_refl.
  - destruct (String.eqb k0 k) eqn:E; simpl; rewrite E; [reflexivity|].
    now rewrite IH.
Qed.

Lemma fix_subtitle_item_again (base : string) (item item' : value) :
  startswith (rstrip "/" base) "http" = true ->
  fix_subtitle_item base item = inr item' ->
  fix_subtitle_item base item' = inr item'.
Proof.
  intros Hb H.
  destruct (fix_subtitle_item_cases base item item' H)
    as [[-> _]|(it & s & -> & Hg & Hh & ->)]; [exact H|].
  unfold fix_subtitle_item, py_in, py_getitem, rbind, ok, dict_mem.
  rewrite !dict_get_set_same. cbv beta iota.
  now rewrite (absolute_url_http base s Hb).
Qed.

Lemma fix_subtitle_items_again (base : string) (items items' : list value) :
  startswith (rstrip "/" base) "http" = true ->
  fix_subtitle_items base items = inr items' ->
  fix_subtitle_items base items' = inr items'.
Proof.
  intros Hb. revert items'. induction items as [|x rest IH]; intros items' H; simpl in H.
  - now injection H as <-.
  - destruct (fix_subtitle_item base x) as [e|x'] eqn:Ex; simpl in H; [discriminate|].
    destruct (fix_subtitle_items base rest) as [e|rest'] eqn:Er; simpl in H;
      [discriminate|].
    injection H as <-. simpl.
    rewrite (fix_subtitle_item_again base x x' Hb Ex). simpl.
    now rewrite (IH rest' eq_refl).
Qed.

(** X19.  With a base URL that begins with "http", the rewriting of
    download URLs settles after one pass: running lines 385-394 again over
    their own result changes nothing, because every URL they produced
    begins with "http" and is left alone the second time. *)
Theorem url_rewriting_settles (base : string) (d d1 : dict) :
  startswith (rstrip "/" base) "http" = true ->
  fix_subtitle_info base d = inr d1 ->
  fix_subtitle_info base d1 = inr d1 /\
  fix_speech_url base (fix_speech_url base d1) = fix_speech_url base d1.
Proof.
  intros Hb H. split.
  - unfold fix_subtitle_info in *.
    destruct (dict_get "subtitle_info" d) as [[| | | | |items|]|] eqn:Eg;
      try (injection H as <-; now rewrite Eg).
    destruct (fix_subtitle_items base items) as [e|items'] eqn:Ei; simpl in H;
      [discriminate|].
    injection H as <-. rewrite dict_get_set_same.
    rewrite (fix_subtitle_items_again base items items' Hb Ei). simpl.
    now rewrite dict_set_set.
  - unfold fix_speech_url at 2 3.
    destruct (dict_get "speech_download_url" d1) as [[| | | |s| |]|] eqn:Eg;
      try (unfold fix_speech_url; now rewrite Eg).
    destruct (negb (String.eqb s "") && negb (startswith s "http")) eqn:Ec.
    + unfold fix_speech_url. rewrite dict_get_set_same.
      rewrite (absolute_url_http base s Hb). now rewrite andb_false_r.
    + unfold fix_speech_url. now rewrite Eg, Ec.
Qed.

Lemma url_rewriting_settles_witness :
  let d := [("subtitle_info", VList [VDict [("download_url", VStr "/api/file/a.srt")]]);
            ("speech_download_url", VStr "api/file/a.mp3")] in
  exists d1,
    fix_subtitle_info "http://127.0.0.1:8888" d = inr d1 /\
    fix_subtitle_info "http://127.0.0.1:8888" d1 = inr d1.
Proof.
  intros d. eexists. split; [reflexivity|].
  apply (url_rewriting_settles "http://127.0.0.1:8888" d _ eq_refl eq_refl).
Defined.

(* ================================================================== *)
(** ** Fetch File As Text: the reply *)

Lemma latin1_char_valid (b : byte) (rest : list byte) :
  utf8_valid (latin1_char b ++ rest) = utf8_valid rest.
Proof. destruct b; reflexivity. Qed.

Lemma latin1_text_valid (bs : list byte) : utf8_valid (flat_map latin1_char bs) = true.
Proof.
  induction bs as [|b bs IH]; [reflexivity|].
  simpl flat_map. now rewrite latin1_char_valid.
Qed.

(** X20.  For a body that was fetched, the reply is [error: 0] with the
    file name taken after the last slash of the URL's path, the
    [content-type] header as MIME type ("text/plain" when there is none),
    and a text that is always well-formed: the body itself when the body
    is valid UTF-8, and otherwise the body read as Latin-1, one character
    per byte. *)
Theorem fetched_file_reply
    (w : world) (base full_download_url p : string) (resp : response) :
  url_path w full_download_url = Some p ->
  http w {| req_method := GET; req_url := full_download_url; req_body_of := NoBody |}
    = inr resp ->
  exists text,
    out_reply (fetch_klicstudio_file_as_text w base full_download_url) =
      VDict [("error", VInt 0);
             ("msg", VStr "文件内容获取成功");
             ("data",
              VDict [("file_name", VStr (basename p));
                     ("text_content", VStr text);
                     ("mime_type",
                      VStr match resp_content_type resp with
                           | Some m => m
                           | None => "text/plain"
                           end)])] /\
    contains "/" (basename p) = false /\
    utf8_valid (list_byte_of_string text) = true /\
    (utf8_valid (resp_content resp) = true ->
     list_byte_of_string text = resp_content resp) /\
    (utf8_valid (resp_content resp) = false ->
     list_byte_of_string text = flat_map latin1_char (resp_content resp)).
Proof.
  intros Hp Hr.
  exists (if utf8_valid (resp_content resp) then string_of_list_byte (resp_content resp)
          else string_of_list_byte (flat_map latin1_char (resp_content resp))).
  split.
  - unfold fetch_klicstudio_file_as_text, try_except, client_request, bind, send, lift.
    simpl. rewrite Hp, Hr, decode_text_total. reflexivity.
  - split; [apply basename_no_slash|].
    destruct (utf8_valid (resp_content resp)) eqn:Ev;
      rewrite list_byte_of_string_of_list_byte.
    + split; [exact Ev|]. split; [reflexivity | discriminate].
    + split; [apply latin1_text_valid|]. split; [discriminate | reflexivity].
Qed.

Lemma fetched_file_reply_witness :
  exists text,
    data_field "text_content"
      (out_reply (fetch_klicstudio_file_as_text (serving [x31; xe9]) "http://127.0.0.1:8888"
                    "http://127.0.0.1:8888/api/file/a.srt")) = Some (VStr text) /\
    list_byte_of_string text = [x31; xc3; xa9].
Proof.
  destruct (fetched_file_reply (serving [x31; xe9]) "http://127.0.0.1:8888"
              "http://127.0.0.1:8888/api/file/a.srt"
              "http://127.0.0.1:8888/api/file/a.srt" _ eq_refl eq_refl)
    as (text & Hreply & _ & _ & _ & Hl).
  exists text. rewrite Hreply. split; [reflexivity|]. exact (Hl eq_refl).
Defined.
